(** * The HTTP gateway and the session lifecycle of the dashboard front end

    A shallow embedding of [services/api.ts] (the axios client with its
    request and response interceptors) and of [services/authService.ts]
    (the [AuthService] class), followed by the properties of the retry
    policy, of the failure classification and of the credential lifecycle.

    Promises are modelled by their completion ([Fulfilled] / [Rejected]),
    the browser by an explicit [World] (localStorage, [window.location.href],
    the console, the timers awaited and the requests put on the wire), and
    the remote service together with the rest of the event loop by an [Env].

    axios is a dependency, not part of the repository.  Three facts about
    it are built into the embedding: a response with a 2xx status fulfils
    the promise and any other rejects it; the error of an attempt carries
    in [error.config] the config that attempt was sent with (the headers
    as the request interceptor left them, [retryCount] included); the
    defaults given to [axios.create] are merged under every config. *)

From Stdlib Require Import ZArith Lia.
From stdpp Require Import base option list strings gmap.

Local Open Scope string_scope.
Local Open Scope list_scope.
Local Open Scope Z_scope.

(** ** Data model *)

(** A JavaScript object used as a string-keyed record of strings:
    localStorage itself, a header bag, query parameters, a JSON body. *)
Abbreviation JsObject := (gmap string string).

(** [RetryConfig extends AxiosRequestConfig { retryCount?: number }].
    The interface is private to api.ts and only the response interceptor
    writes [retryCount], counting up from 0: a natural number when set. *)
Record RetryConfig := mkConfig {
  url : string;
  method : string;
  params : JsObject;
  data : JsObject;
  headers : JsObject;
  retryCount : option nat
}.

Record AxiosResponse := mkResponse {
  status : Z;
  rdata : JsObject
}.

(** [AxiosError]: both [config] and [response] are optional members. *)
Record AxiosError := mkError {
  config : option RetryConfig;
  response : option AxiosResponse;
  message : string
}.

(** What a [catch (error)] clause can receive. *)
Inductive JsError :=
  | AxiosErr (e : AxiosError)
  | PlainErr (msg : string).

(** How a promise ends. *)
Inductive Completion (A : Type) :=
  | Fulfilled (a : A)
  | Rejected (e : JsError).
Arguments Fulfilled {A} a.
Arguments Rejected {A} e.

(** What one attempt comes to.  axios attaches the request's config to the
    error it raises for a response outside 2xx and for a request that got
    no response; an error raised elsewhere in the chain carries none. *)
Inductive Outcome :=
  | Responded (r : AxiosResponse)
  | NoResponse (msg : string)
  | Detached (r : option AxiosResponse) (msg : string).

Record World := mkWorld {
  localStorage : JsObject;
  href : string;
  console : list string;
  timers : list Z;
  wire : list RetryConfig
}.

(** The remote service and the other tasks of the event loop: the answer to
    the n-th request put on the wire, and what the other tasks do to
    localStorage while the n-th backoff timer is pending. *)
Record Env := mkEnv {
  transport : nat -> RetryConfig -> Outcome;
  meanwhile : nat -> JsObject -> JsObject
}.

Definition set_localStorage (f : JsObject -> JsObject) (w : World) : World :=
  mkWorld (f (localStorage w)) (href w) (console w) (timers w) (wire w).
Definition set_href (h : string) (w : World) : World :=
  mkWorld (localStorage w) h (console w) (timers w) (wire w).
Definition log_console (line : string) (w : World) : World :=
  mkWorld (localStorage w) (href w) (console w ++ [line]) (timers w) (wire w).
Definition push_timer (delay : Z) (w : World) : World :=
  mkWorld (localStorage w) (href w) (console w) (timers w ++ [delay]) (wire w).
Definition push_wire (c : RetryConfig) (w : World) : World :=
  mkWorld (localStorage w) (href w) (console w) (timers w) (wire w ++ [c]).

Definition set_headers (h : JsObject) (c : RetryConfig) : RetryConfig :=
  mkConfig (url c) (method c) (params c) (data c) h (retryCount c).
Definition set_retryCount (n : nat) (c : RetryConfig) : RetryConfig :=
  mkConfig (url c) (method c) (params c) (data c) (headers c) (Some n).
Definition set_config (c : RetryConfig) (e : AxiosError) : AxiosError :=
  mkError (Some c) (response e) (message e).

(** ** Computations

    A method, [async] or not, is a function of the environment and of the
    world that ends in a completion; [None] only when the recursion budget
    of [client] below is used up. *)
Definition Js (A : Type) : Type :=
  Env -> World -> option (World * Completion A).

#[export] Instance js_ret : MRet Js :=
  fun A a _ w => Some (w, Fulfilled a).

#[export] Instance js_bind : MBind Js :=
  fun A B k m env w =>
    match m env w with
    | Some (w', Fulfilled a) => k a env w'
    | Some (w', Rejected e) => Some (w', Rejected e)
    | None => None
    end.

Definition throw {A} (e : JsError) : Js A :=
  fun _ w => Some (w, Rejected e).

(** [try { m } catch (error) { h error }]. *)
Definition try_catch {A} (m : Js A) (h : JsError -> Js A) : Js A :=
  fun env w =>
    match m env w with
    | Some (w', Rejected e) => h e env w'
    | r => r
    end.

(** [try { m } finally { f }]: [f] runs however [m] ends; when [f] ends
    normally the completion of [m] stands. *)
Definition try_finally {A} (m : Js A) (f : Js unit) : Js A :=
  fun env w =>
    match m env w with
    | Some (w', c) =>
        match f env w' with
        | Some (w'', Fulfilled _) => Some (w'', c)
        | Some (w'', Rejected e) => Some (w'', Rejected e)
        | None => None
        end
    | None => None
    end.

Definition effect (f : World -> World) : Js unit :=
  fun _ w => Some (f w, Fulfilled tt).
Definition read {A} (f : World -> A) : Js A :=
  fun _ w => Some (w, Fulfilled (f w)).

(** JavaScript truthiness of [string | null] and of [number | undefined]. *)
Definition truthy (v : option string) : bool :=
  match v with
  | Some (String _ _) => true
  | _ => false
  end.

Definition truthy_num (v : option Z) : bool :=
  match v with
  | Some n => negb (n =? 0)
  | None => false
  end.

(** [a || b] on strings. *)
Definition or_else (a : option string) (b : option string) : option string :=
  if truthy a then a else b.

(** ** api.ts *)

Module Api.

Definition MAX_RETRIES : nat := 3.
Definition RETRY_DELAY : Z := 1000.

(** [axios.create({ headers: { 'Content-Type': 'application/json' } })]:
    the instance defaults are merged under the caller's config. *)
Definition mergeConfig (c : RetryConfig) : RetryConfig :=
  set_headers (headers c ∪ {[ "Content-Type" := "application/json" ]}) c.

(** Request interceptor - add auth token if available. *)
Definition requestInterceptor (store : JsObject) (c : RetryConfig) : RetryConfig :=
  let token := store !! "access_token" in
  match token with
  | Some t =>
      if truthy token
      then set_headers (<[ "Authorization" := "Bearer " +:+ t ]> (headers c)) c
      else c
  | None => c
  end.

(** axios settles the promise of one attempt: 2xx resolves (the default
    [validateStatus]), anything else rejects. *)
Definition settle (c : RetryConfig) (o : Outcome) : AxiosResponse + AxiosError :=
  match o with
  | Responded r =>
      if (200 <=? status r) && (status r <? 300)
      then inl r
      else inr (mkError (Some c) (Some r) "Request failed")
  | NoResponse msg => inr (mkError (Some c) None msg)
  | Detached r msg => inr (mkError None r msg)
  end.

(** The guard of the response interceptor:
    [error.response?.status && status < 500 && status !== 429]. *)
Definition noRetryStatus (st : option Z) : bool :=
  match st with
  | Some s => truthy_num st && (s <? 500) && negb (s =? 429)
  | None => false
  end.

(** Response interceptor, rejected branch.  [retry] is the [client] the
    closure captured. *)
Definition onRejected (retry : RetryConfig -> Js AxiosResponse)
    (error : AxiosError) : Js AxiosResponse :=
  fun env w =>
    match config error with
    | None => Some (w, Rejected (AxiosErr error))
    | Some cfg =>
        let st := status <$> response error in
        if noRetryStatus st then
          let w' :=
            if bool_decide (st = Some 401)
            then set_href "/auth/login"
                   (set_localStorage (delete "access_token") w)
            else w in
          Some (w', Rejected (AxiosErr error))
        else
          let count := default 0%nat (retryCount cfg) in
          if (count <? MAX_RETRIES)%nat then
            let count' := S count in
            let delay := RETRY_DELAY * 2 ^ (Z.of_nat count' - 1) in
            let w' := set_localStorage (meanwhile env (length (timers w)))
                        (push_timer delay w) in
            retry (set_retryCount count' cfg) env w'
          else
            Some (w, Rejected (AxiosErr (set_config (set_retryCount count cfg) error)))
    end.

(** [client(config)]: merge the defaults, run the request interceptor,
    put the request on the wire, run the response interceptor. *)
Fixpoint client (budget : nat) (c : RetryConfig) : Js AxiosResponse :=
  fun env w =>
    match budget with
    | O => None
    | S budget' =>
        let sent := requestInterceptor (localStorage w) (mergeConfig c) in
        let w1 := push_wire sent w in
        match settle sent (transport env (length (wire w)) sent) with
        | inl r => Some (w1, Fulfilled r)
        | inr error => onRejected (client budget') error env w1
        end
    end.

(** Each retry raises [retryCount] and none happens from [MAX_RETRIES] on,
    so this many nested calls are enough (see [apiClient_total]). *)
Definition apiClient (c : RetryConfig) : Js AxiosResponse :=
  client (S (MAX_RETRIES - default 0%nat (retryCount c))) c.

Definition get (u : string) (ps : JsObject) : Js AxiosResponse :=
  apiClient (mkConfig u "get" ps ∅ ∅ None).
Definition post (u : string) (body : JsObject) : Js AxiosResponse :=
  apiClient (mkConfig u "post" ∅ body ∅ None).

(** [response?.detail || response?.message || error.message || 'An error occurred'] *)
Definition getErrorMessage (error : JsError) : string :=
  match error with
  | AxiosErr e =>
      let body := default ∅ (rdata <$> response e) in
      default "An error occurred"
        (or_else (body !! "detail")
           (or_else (body !! "message")
              (or_else (Some (message e)) (Some "An error occurred"))))
  | PlainErr msg => msg
  end.

Definition put (u : string) (body : JsObject) : Js AxiosResponse :=
  apiClient (mkConfig u "put" ∅ body ∅ None).
Definition delete (u : string) : Js AxiosResponse :=
  apiClient (mkConfig u "delete" ∅ ∅ ∅ None).

End Api.

(** ** authService.ts *)

Module AuthService.

Definition TOKEN_KEY : string := "access_token".
Definition REFRESH_TOKEN_KEY : string := "refresh_token".
Definition USER_KEY : string := "user_session".

(** [localStorage.setItem] stores the string conversion of its argument. *)
Definition to_item (v : option string) : string := default "undefined" v.

Definition getToken : Js (option string) :=
  read (fun w => localStorage w !! TOKEN_KEY).

Definition setToken (token : string) : Js unit :=
  effect (set_localStorage (<[ TOKEN_KEY := token ]>)).

Definition getRefreshToken : Js (option string) :=
  read (fun w => localStorage w !! REFRESH_TOKEN_KEY).

Definition setRefreshToken (token : string) : Js unit :=
  effect (set_localStorage (<[ REFRESH_TOKEN_KEY := token ]>)).

Definition isAuthenticated : Js bool :=
  token ← getToken; mret (truthy token).

Definition clearAuth : Js unit :=
  effect (set_localStorage (delete TOKEN_KEY));;
  effect (set_localStorage (delete REFRESH_TOKEN_KEY));;
  effect (set_localStorage (delete USER_KEY)).

(** The session is kept as its JSON text ([JSON.stringify] on the way in,
    [JSON.parse] on the way out are the platform's). *)
Definition getUserSession : Js (option string) :=
  session ← read (fun w => localStorage w !! USER_KEY);
  mret (if truthy session then session else None).

Definition setUserSession (json : string) : Js unit :=
  effect (set_localStorage (<[ USER_KEY := json ]>)).

Definition initiateShopifyAuth (shopDomain : string) : Js JsObject :=
  try_catch
    (response ← Api.post "/auth/shopify/install" {[ "shop" := shopDomain ]};
     mret (rdata response))
    (fun error =>
       throw (PlainErr ("Failed to initiate Shopify auth: " +:+ Api.getErrorMessage error))).

(** The object literal [{ shop, code, state, hmac, timestamp }]. *)
Definition callbackParams (shop code state hmac timestamp : string) : JsObject :=
  {[ "shop" := shop; "code" := code; "state" := state; "hmac" := hmac;
     "timestamp" := timestamp ]}.

Definition handleShopifyCallback (shop code state hmac timestamp : string)
    : Js JsObject :=
  try_catch
    (response ← Api.get "/auth/shopify/callback"
                  (callbackParams shop code state hmac timestamp);
     let access_token := rdata response !! "access_token" in
     setToken (to_item access_token);;
     mret (rdata response))
    (fun error =>
       throw (PlainErr ("Failed to complete Shopify auth: " +:+ Api.getErrorMessage error))).

Definition verifyStoreAccess (shopDomain : string) : Js bool :=
  try_catch
    (response ← Api.get ("/auth/shopify/verify/" +:+ shopDomain) ∅;
     mret (status response =? 200))
    (fun _ => mret false).

Definition logout : Js unit :=
  try_finally
    (try_catch
       (Api.post "/auth/logout" ∅;; mret tt)
       (fun error =>
          effect (log_console ("Error during logout: " +:+ Api.getErrorMessage error))))
    clearAuth.

Definition refreshToken : Js bool :=
  try_catch
    (refreshToken ← getRefreshToken;
     if negb (truthy refreshToken) then mret false
     else
       response ← Api.post "/auth/refresh" {[ "refresh_token" := to_item refreshToken ]};
       let access_token := rdata response !! "access_token" in
       setToken (to_item access_token);;
       mret true)
    (fun _ => clearAuth;; mret false).

End AuthService.

(** ** storeService.ts *)

Module StoreService.

Definition getStore (storeId : string) : Js JsObject :=
  try_catch
    (response ← Api.get ("/stores/" +:+ storeId) ∅;
     mret (rdata response))
    (fun error =>
       throw (PlainErr ("Failed to fetch store: " +:+ Api.getErrorMessage error))).

Definition createStore (storeData : JsObject) : Js JsObject :=
  try_catch
    (response ← Api.post "/stores/" storeData;
     mret (rdata response))
    (fun error =>
       throw (PlainErr ("Failed to create store: " +:+ Api.getErrorMessage error))).

Definition updateStore (storeId : string) (storeData : JsObject) : Js JsObject :=
  try_catch
    (response ← Api.put ("/stores/" +:+ storeId) storeData;
     mret (rdata response))
    (fun error =>
       throw (PlainErr ("Failed to update store: " +:+ Api.getErrorMessage error))).

Definition deleteStore (storeId : string) : Js unit :=
  try_catch
    (Api.delete ("/stores/" +:+ storeId);; mret tt)
    (fun error =>
       throw (PlainErr ("Failed to delete store: " +:+ Api.getErrorMessage error))).

Definition syncStore (storeId : string) : Js JsObject :=
  try_catch
    (response ← Api.post ("/stores/" +:+ storeId +:+ "/sync") ∅;
     mret (rdata response))
    (fun error =>
       throw (PlainErr ("Failed to sync store: " +:+ Api.getErrorMessage error))).

Definition getStoreSyncStatus (storeId : string) : Js JsObject :=
  try_catch
    (response ← Api.get ("/stores/" +:+ storeId +:+ "/sync-status") ∅;
     mret (rdata response))
    (fun error =>
       throw (PlainErr ("Failed to fetch sync status: " +:+ Api.getErrorMessage error))).

(** [maxAgeHours] in milliseconds: 24 * (1000 * 60 * 60). *)
Definition maxAge : Z := 24 * (1000 * 60 * 60).

(** The clock and the date parser are the platform's: [now] is what
    [new Date().getTime()] returns, [Date_parse s] what
    [new Date(s).getTime()] returns, [None] standing for NaN (an invalid
    date).  Times are whole milliseconds, so
    [(now - last) / (1000 * 60 * 60) > 24] holds exactly when
    [now - last] exceeds [maxAge]; a comparison with NaN is false. *)
Definition checkSyncNeeded (Date_parse : string -> option Z) (now : Z)
    (storeId : string) : Js bool :=
  try_catch
    (store ← getStore storeId;
     let last_sync_at := store !! "last_sync_at" in
     if truthy last_sync_at then
       match Date_parse (default EmptyString last_sync_at) with
       | Some lastSync => mret (maxAge <? now - lastSync)
       | None => mret false
       end
     else mret true)
    (fun error =>
       effect (log_console ("Error checking sync needed: " +:+ Api.getErrorMessage error));;
       mret false).

End StoreService.

(** ** Vocabulary of the properties *)

(** No other task writes to localStorage while a call waits. *)
Definition undisturbed (env : Env) : Prop :=
  forall n store, meanwhile env n store = store.

(** Two configs ask for the same thing. *)
Definition same_request (a b : RetryConfig) : Prop :=
  url a = url b /\ method a = method b /\ params a = params b /\ data a = data b.

(** The outcomes the response interceptor resubmits, by status: no
    response, or a response with status 429, 500 and above, or 0. *)
Definition resubmitted_status (o : Outcome) : Prop :=
  match o with
  | Responded r => status r = 0 \/ status r = 429 \/ 500 <= status r
  | NoResponse _ => True
  | Detached _ _ => False
  end.


(** The failures the retry policy is specified for: a response with status
    500, 502, 503 or 429, or no response at all. *)
Definition retryable_failure (o : Outcome) : bool :=
  match o with
  | Responded r => bool_decide (status r ∈ [500; 502; 503; 429])
  | NoResponse _ => true
  | Detached _ _ => false
  end.

(** The failures the response interceptor resubmits while the budget lasts:
    the error has a config and the guard on its status does not fire. *)
Definition retried (o : Outcome) : bool :=
  match o with
  | Responded r =>
      negb ((200 <=? status r) && (status r <? 300))
      && negb (Api.noRetryStatus (Some (status r)))
  | NoResponse _ => true
  | Detached _ _ => false
  end.

(** [RETRY_DELAY * Math.pow(2, retryCount - 1)] for retryCount = 1, 2, 3. *)
Definition backoff : list Z :=
  (fun n : nat => Api.RETRY_DELAY * 2 ^ (Z.of_nat n - 1)) <$> seq 1 Api.MAX_RETRIES.

(** The completion of the promise of one attempt, as the caller sees it
    when the response interceptor passes it on. *)
Definition completion (x : AxiosResponse + AxiosError) : Completion AxiosResponse :=
  match x with
  | inl r => Fulfilled r
  | inr error => Rejected (AxiosErr error)
  end.

(** What [client] hands to the transport for config [c] in world [w]. *)
Definition sent (w : World) (c : RetryConfig) : RetryConfig :=
  Api.requestInterceptor (localStorage w) (Api.mergeConfig c).

(** The retry counter as the interceptor reads it: [config.retryCount || 0]. *)
Definition count (c : RetryConfig) : nat := default 0%nat (retryCount c).

(** The world when the retry after the attempt [c] is issued: the request
    is on the wire, the timer has run, the other tasks have had their turn. *)
Definition after_wait (env : Env) (w : World) (c : RetryConfig) : World :=
  set_localStorage (meanwhile env (length (timers w)))
    (push_timer (Api.RETRY_DELAY * 2 ^ (Z.of_nat (S (count c)) - 1))
       (push_wire (sent w c) w)).

(** The world after an attempt that is not resubmitted: a 401 with a
    config clears the access token and moves to the login page. *)
Definition after_final (w : World) (c : RetryConfig) (o : Outcome) : World :=
  match Api.settle (sent w c) o with
  | inr (mkError (Some _) (Some r) _) =>
      if bool_decide (status r = 401)
      then set_href "/auth/login"
             (set_localStorage (delete "access_token") (push_wire (sent w c) w))
      else push_wire (sent w c) w
  | _ => push_wire (sent w c) w
  end.

(** No access token, no refresh token and no cached session are stored. *)
Definition no_credentials (w : World) : Prop :=
  localStorage w !! "access_token" = None
  /\ localStorage w !! "refresh_token" = None
  /\ localStorage w !! "user_session" = None.

(** What the three [removeItem] calls of [clearAuth] leave of a store. *)
Definition cleared (store : JsObject) : JsObject :=
  delete "user_session" (delete "refresh_token" (delete "access_token" store)).

(** "A response with status [s]". *)
Definition responded_with (s : Z) (o : Outcome) : Prop :=
  exists r, o = Responded r /\ status r = s.

(** ** Scenarios *)

Module Scenario.

Definition ok (body : JsObject) : Outcome := Responded (mkResponse 200 body).
Definition failing (s : Z) : Outcome := Responded (mkResponse s ∅).

(** The remote service answers the requests with the listed outcomes, in
    order, then with [rest]; no other task touches localStorage. *)
Definition scripted (script : list Outcome) (rest : Outcome) : Env :=
  mkEnv (fun n _ => default rest (script !! n)) (fun _ store => store).

(** While the first backoff timer is pending another call is answered 401,
    and its interceptor removes the access token. *)
Definition signed_out_meanwhile : Env :=
  mkEnv (fun n _ => match n with O => failing 503 | _ => ok ∅ end)
        (fun _ store => delete "access_token" store).

Definition fresh_page (store : JsObject) : World := mkWorld store "/" [] [] [].

Definition signed_in : World :=
  fresh_page {[ "access_token" := "tok"; "refresh_token" := "ref";
                "user_session" := "{}" ]}.
Definition only_access : World := fresh_page {[ "access_token" := "tok" ]}.
Definition empty_token : World := fresh_page {[ "access_token" := EmptyString ]}.

Definition request : RetryConfig := mkConfig "/stores/" "get" ∅ ∅ ∅ None.

End Scenario.

(** ** The gateway, one attempt at a time *)

(** Unfolds the plumbing of [Js] computations. *)
Ltac js_unfold :=
  unfold try_catch, try_finally, mbind, js_bind, mret, js_ret, read, effect, throw.

Lemma backoff_eq : backoff = [1000; 2000; 4000].
Proof. reflexivity. Qed.

Lemma count_sent w c : count (sent w c) = count c.
Proof.
  unfold sent, Api.requestInterceptor, Api.mergeConfig, count.
  destruct (localStorage w !! "access_token") as [t|]; [|done].
  by destruct (truthy (Some t)).
Qed.

Lemma retryCount_sent w c : retryCount (sent w c) = retryCount c.
Proof.
  unfold sent, Api.requestInterceptor, Api.mergeConfig.
  destruct (localStorage w !! "access_token") as [t|]; [|done].
  by destruct (truthy (Some t)).
Qed.

Lemma retryable_failure_retried o : retryable_failure o = true -> retried o = true.
Proof.
  destruct o as [[s body]|msg|r msg]; simpl; [|done..].
  intros H. apply bool_decide_eq_true in H.
  repeat (apply elem_of_cons in H as [->|H]); [reflexivity..|].
  by apply elem_of_nil in H.
Qed.

(** A resubmitted failure settles as an error that carries the request and
    passes the status guard. *)
Lemma retried_settle c o :
  retried o = true ->
  exists error, Api.settle c o = inr error /\ config error = Some c /\
    Api.noRetryStatus (status <$> response error) = false.
Proof.
  destruct o as [r|msg|r msg]; simpl.
  - destruct ((200 <=? status r) && (status r <? 300)); [done|]. simpl.
    intros H. eexists; repeat split. simpl. by apply negb_true_iff.
  - intros _. eexists; repeat split.
  - done.
Qed.

(** The attempt fails with a resubmittable error and the counter is below
    the maximum: wait, then call [client] again with the counter raised. *)
Lemma client_retry b c env w :
  retried (transport env (length (wire w)) (sent w c)) = true ->
  (count c < Api.MAX_RETRIES)%nat ->
  Api.client (S b) c env w
  = Api.client b (set_retryCount (S (count c)) (sent w c)) env (after_wait env w c).
Proof.
  intros Hr Hc. simpl. fold (sent w c).
  destruct (retried_settle (sent w c) _ Hr) as (error & -> & Hcfg & Hst).
  unfold Api.onRejected. rewrite Hcfg, Hst. fold (count (sent w c)).
  rewrite count_sent.
  apply Nat.ltb_lt in Hc. rewrite Hc. reflexivity.
Qed.

(** The same failure once the counter has reached the maximum: the error
    goes to the caller. *)
Lemma client_exhausted b c env w :
  retried (transport env (length (wire w)) (sent w c)) = true ->
  (Api.MAX_RETRIES <= count c)%nat ->
  Api.client (S b) c env w
  = Some (push_wire (sent w c) w,
          completion (Api.settle (sent w c) (transport env (length (wire w)) (sent w c)))).
Proof.
  intros Hr Hc. simpl. fold (sent w c).
  destruct (retried_settle (sent w c) _ Hr) as (error & -> & Hcfg & Hst).
  unfold Api.onRejected. rewrite Hcfg, Hst. fold (count (sent w c)).
  rewrite count_sent.
  apply Nat.ltb_ge in Hc. rewrite Hc. simpl.
  do 3 f_equal.
  destruct error as [cfg rsp msg]; simpl in *. subst cfg.
  unfold set_config; simpl. do 2 f_equal.
  assert (retryCount (sent w c) = Some (count c)) as Hsome.
  { rewrite retryCount_sent. unfold count in *.
    destruct (retryCount c) as [n|]; [done|]. simpl in Hc. discriminate Hc. }
  unfold set_retryCount. rewrite <- Hsome. by destruct (sent w c).
Qed.

(** Any other outcome ends the call with this attempt. *)
Lemma client_final b c env w :
  retried (transport env (length (wire w)) (sent w c)) = false ->
  Api.client (S b) c env w
  = Some (after_final w c (transport env (length (wire w)) (sent w c)),
          completion (Api.settle (sent w c) (transport env (length (wire w)) (sent w c)))).
Proof.
  intros Hr. simpl. fold (sent w c). unfold after_final.
  set (o := transport env (length (wire w)) (sent w c)) in *.
  destruct o as [r|msg|r msg]; simpl in *; [|done..].
  destruct ((200 <=? status r) && (status r <? 300)); [done|].
  simpl in *. apply negb_false_iff in Hr.
  unfold Api.onRejected; simpl. rewrite Hr.
  destruct (decide (status r = 401)) as [E|E].
  - rewrite E. reflexivity.
  - rewrite !bool_decide_eq_false_2; [done|done|congruence].
Qed.

Lemma wire_after_wait env w c : wire (after_wait env w c) = wire w ++ [sent w c].
Proof. reflexivity. Qed.

Lemma timers_after_wait env w c :
  timers (after_wait env w c)
  = timers w ++ [Api.RETRY_DELAY * 2 ^ (Z.of_nat (S (count c)) - 1)].
Proof. reflexivity. Qed.

Lemma wire_after_final w c o : wire (after_final w c o) = wire w ++ [sent w c].
Proof.
  unfold after_final.
  destruct (Api.settle (sent w c) o) as [r|[[cfg|] [r|] msg]]; try reflexivity.
  by destruct (bool_decide (status r = 401)).
Qed.

Lemma timers_after_final w c o : timers (after_final w c o) = timers w.
Proof.
  unfold after_final.
  destruct (Api.settle (sent w c) o) as [r|[[cfg|] [r|] msg]]; try reflexivity.
  by destruct (bool_decide (status r = 401)).
Qed.

Lemma count_set_retryCount n c : count (set_retryCount n c) = n.
Proof. reflexivity. Qed.

(** [client] ends whenever its budget exceeds the retries still allowed. *)
Lemma client_total b : forall c env w,
  (Api.MAX_RETRIES - count c < b)%nat -> is_Some (Api.client b c env w).
Proof.
  induction b as [|b IH]; intros c env w Hb; [lia|].
  destruct (retried (transport env (length (wire w)) (sent w c))) eqn:Hr.
  - destruct (decide (count c < Api.MAX_RETRIES)%nat) as [Hc|Hc].
    + rewrite client_retry by done. apply IH.
      rewrite count_set_retryCount. lia.
    + rewrite client_exhausted by (done || lia). done.
  - rewrite client_final by done. done.
Qed.

Lemma apiClient_total c env w : is_Some (Api.apiClient c env w).
Proof. apply client_total. fold (count c). lia. Qed.

(** The last attempt of a call: its outcome is not resubmittable, or the
    counter has reached the maximum. *)
Lemma client_last b c env w :
  retried (transport env (length (wire w)) (sent w c)) = false
  \/ (Api.MAX_RETRIES <= count c)%nat ->
  Api.client (S b) c env w
  = Some (after_final w c (transport env (length (wire w)) (sent w c)),
          completion (Api.settle (sent w c) (transport env (length (wire w)) (sent w c)))).
Proof.
  destruct (retried (transport env (length (wire w)) (sent w c))) eqn:Hr.
  - intros [|Hc]; [done|]. rewrite client_exhausted by done. do 2 f_equal.
    unfold after_final.
    destruct (retried_settle (sent w c) _ Hr) as ([[cfg|] [r|] msg] & -> & _ & Hst);
      simpl in *; try done.
    rewrite bool_decide_eq_false_2; [done|].
    intros E. rewrite E in Hst. discriminate Hst.
  - intros _. by apply client_final.
Qed.

(** [N] resubmittable failures in a row within the budget: [client] is
    called again [N] times, each time after the next backoff delay. *)
Lemma client_retries N : forall b c env w,
  (count c + N <= Api.MAX_RETRIES)%nat ->
  (forall i cfg, (i < N)%nat ->
     retried (transport env (length (wire w) + i) cfg) = true) ->
  exists cN wN,
    Api.client (N + b) c env w = Api.client b cN env wN
    /\ count cN = (count c + N)%nat
    /\ length (wire wN) = (length (wire w) + N)%nat
    /\ timers wN = timers w ++ take N (drop (count c) backoff)
    /\ href wN = href w
    /\ console wN = console w
    /\ (N = 0%nat -> cN = c /\ wN = w).
Proof.
  change Api.MAX_RETRIES with 3%nat.
  induction N as [|N IH]; intros b c env w Hc Hfail.
  - exists c, w. rewrite take_0, app_nil_r, !Nat.add_0_r. done.
  - pose proof (Hfail 0%nat (sent w c) ltac:(lia)) as Hr.
    rewrite Nat.add_0_r in Hr.
    change (S N + b)%nat with (S (N + b)).
    rewrite client_retry by (done || (change Api.MAX_RETRIES with 3%nat; lia)).
    destruct (IH b (set_retryCount (S (count c)) (sent w c)) env
                (after_wait env w c)) as (cN & wN & Hrun & Hcnt & Hlen & Htm & Hh & Hco & _).
    + rewrite count_set_retryCount. lia.
    + intros i cfg Hi. rewrite wire_after_wait, length_app. simpl.
      replace (length (wire w) + 1 + i)%nat with (length (wire w) + S i)%nat by lia.
      apply Hfail. lia.
    + rewrite count_set_retryCount, wire_after_wait, length_app in *.
      simpl in Hlen.
      exists cN, wN. repeat split; try done; try lia.
      rewrite Htm, timers_after_wait, <- app_assoc. f_equal.
      destruct (count c) as [|[|[|k]]]; [reflexivity..|exfalso; lia].
Qed.

Lemma take_min_backoff N : take (N `min` 3) backoff = take N backoff.
Proof.
  rewrite backoff_eq. destruct N as [|[|[|n]]]; try reflexivity.
  simpl. by rewrite !take_nil.
Qed.

(** A whole call on a fresh config: [N] resubmittable failures, then (if
    the budget is not used up) an outcome that ends the call. *)
Lemma apiClient_run N c env w :
  retryCount c = None ->
  (forall i cfg, (i < N)%nat ->
     retried (transport env (length (wire w) + i) cfg) = true) ->
  ((N < Api.MAX_RETRIES)%nat ->
     forall cfg, retried (transport env (length (wire w) + N) cfg) = false) ->
  exists cN wN,
    Api.apiClient c env w
    = Some (after_final wN cN (transport env (length (wire wN)) (sent wN cN)),
            completion (Api.settle (sent wN cN)
                          (transport env (length (wire wN)) (sent wN cN))))
    /\ length (wire wN) = (length (wire w) + N `min` Api.MAX_RETRIES)%nat
    /\ timers wN = timers w ++ take N backoff
    /\ href wN = href w
    /\ console wN = console w
    /\ (N = 0%nat -> cN = c /\ wN = w).
Proof.
  intros Hfresh Hfail Hend.
  assert (count c = 0%nat) as Hc0 by (unfold count; by rewrite Hfresh).
  destruct (client_retries (N `min` 3) (S (3 - N `min` 3)) c env w)
    as (cN & wN & Hrun & Hcnt & Hlen & Htm & Hh & Hco & H0).
  { rewrite Hc0. change Api.MAX_RETRIES with 3%nat. lia. }
  { intros i cfg Hi. apply Hfail. lia. }
  exists cN, wN.
  unfold Api.apiClient. fold (count c). rewrite Hc0.
  change Api.MAX_RETRIES with 3%nat in *.
  replace (S (3 - 0)) with (N `min` 3 + S (3 - N `min` 3))%nat by lia.
  rewrite Hrun, client_last.
  - split; [done|]. split; [done|]. split.
    { rewrite Htm, Hc0, drop_0. f_equal. apply take_min_backoff. }
    split; [done|]. split; [done|].
    intros ->. by apply H0.
  - destruct (decide (N < 3)%nat) as [Hlt|Hge].
    + left. rewrite Hlen. replace (N `min` 3)%nat with N by lia. by apply Hend.
    + right. change Api.MAX_RETRIES with 3%nat. lia.
Qed.

Lemma wire_last_after_final w c o : last (wire (after_final w c o)) = Some (sent w c).
Proof. rewrite wire_after_final. apply last_snoc. Qed.

Lemma retried_responded_4xx s o :
  responded_with s o -> 400 <= s < 500 -> s <> 429 -> retried o = false.
Proof.
  intros (r & -> & <-) Hs H429. simpl.
  replace ((200 <=? status r) && (status r <? 300)) with false
    by (symmetry; apply andb_false_iff; right; lia).
  simpl. apply negb_false_iff.
  apply andb_true_iff; split; [apply andb_true_iff; split|].
  - apply negb_true_iff. lia.
  - lia.
  - apply negb_true_iff. lia.
Qed.

(** ** The retry policy *)

(** C1.  A fresh request whose first [N] outcomes are retryable failures
    (status 500, 502, 503 or 429, or no response), the next outcome, when
    fewer than [MAX_RETRIES] of them came, being one the interceptor does
    not resubmit: the gateway makes min(N+1, 4) attempts, waits
    [RETRY_DELAY * 2^(retryCount-1)] before each retry, that is 1000, 2000,
    4000 ms, and hands the caller the completion of the last attempt; when
    all four attempts fail this is the rejection with the fourth failure. *)
Theorem retry_schedule env w c N :
  retryCount c = None ->
  (forall i cfg, (i < N)%nat ->
     retryable_failure (transport env (length (wire w) + i) cfg) = true) ->
  ((N < Api.MAX_RETRIES)%nat ->
     forall cfg, retried (transport env (length (wire w) + N) cfg) = false) ->
  exists w' final r,
    Api.apiClient c env w = Some (w', r)
    /\ r = completion (Api.settle final
                         (transport env (length (wire w) + N `min` 3) final))
    /\ last (wire w') = Some final
    /\ length (wire w') = (length (wire w) + (N + 1) `min` 4)%nat
    /\ timers w' = timers w ++ take N backoff
    /\ backoff = [1000; 2000; 4000]
    /\ ((Api.MAX_RETRIES < N)%nat ->
        exists error,
          r = Rejected (AxiosErr error)
          /\ Api.settle final (transport env (length (wire w) + 3) final) = inr error).
Proof.
  intros Hfresh Hfail Hend.
  destruct (apiClient_run N c env w) as (cN & wN & Hrun & Hlen & Htm & _);
    [done| |done|].
  { intros i cfg Hi. by apply retryable_failure_retried, Hfail. }
  change Api.MAX_RETRIES with 3%nat in *.
  rewrite Hlen in Hrun.
  eexists _, (sent wN cN), _. split; [exact Hrun|].
  split; [reflexivity|]. split; [apply wire_last_after_final|].
  split; [rewrite wire_after_final, length_app, Hlen; simpl; lia|].
  split; [by rewrite timers_after_final|]. split; [reflexivity|].
  intros HN. replace (N `min` 3)%nat with 3%nat by lia.
  pose proof (Hfail 3%nat (sent wN cN) ltac:(lia)) as Hr.
  apply retryable_failure_retried in Hr.
  destruct (retried_settle (sent wN cN) _ Hr) as (error & Hs & _).
  exists error. by rewrite Hs.
Qed.

Lemma retry_schedule_witness :
  exists w' final r,
    Api.apiClient Scenario.request
      (Scenario.scripted [Scenario.failing 503; Scenario.failing 429] (Scenario.ok ∅))
      Scenario.only_access
    = Some (w', r)
    /\ r = completion (Api.settle final (Scenario.ok ∅))
    /\ last (wire w') = Some final
    /\ length (wire w') = 3%nat
    /\ timers w' = [1000; 2000]
    /\ backoff = [1000; 2000; 4000]
    /\ ((Api.MAX_RETRIES < 2)%nat ->
        exists error,
          r = Rejected (AxiosErr error)
          /\ Api.settle final (Scenario.ok ∅) = inr error).
Proof.
  apply (retry_schedule
           (Scenario.scripted [Scenario.failing 503; Scenario.failing 429] (Scenario.ok ∅))
           Scenario.only_access Scenario.request 2).
  - reflexivity.
  - intros i cfg Hi. destruct i as [|[|i]]; [reflexivity..|lia].
  - intros _ cfg. reflexivity.
Defined.

(** The two scenarios of the specification, run on the model: three 503
    then a 200 (the body comes back after 7000 ms of waiting), and a 429
    on every attempt (the fourth one is handed to the caller). *)
Example three_503_then_200 :
  exists w',
    Api.apiClient Scenario.request
      (Scenario.scripted (replicate 3 (Scenario.failing 503))
         (Scenario.ok {[ "stores" := "[]" ]}))
      Scenario.only_access
    = Some (w', Fulfilled (mkResponse 200 {[ "stores" := "[]" ]}))
    /\ length (wire w') = 4%nat
    /\ foldr Z.add 0 (timers w') = 7000.
Proof. eexists. vm_compute. done. Qed.

Example always_429 :
  exists w' error,
    Api.apiClient Scenario.request (Scenario.scripted [] (Scenario.failing 429))
      Scenario.only_access
    = Some (w', Rejected (AxiosErr error))
    /\ status <$> response error = Some 429
    /\ length (wire w') = 4%nat
    /\ timers w' = [1000; 2000; 4000].
Proof. eexists _, _. vm_compute. done. Qed.

(** C4.  A response with status 400, 403, 404 or 422 ends the call with
    this one attempt: the error goes to the caller, no timer is started,
    and localStorage (hence the access token, the refresh token and the
    cached session) and the location are as before. *)
Theorem client_error_not_retried env w c s :
  s ∈ [400; 403; 404; 422] ->
  responded_with s (transport env (length (wire w)) (sent w c)) ->
  exists w' error,
    Api.apiClient c env w = Some (w', Rejected (AxiosErr error))
    /\ status <$> response error = Some s
    /\ wire w' = wire w ++ [sent w c]
    /\ timers w' = timers w
    /\ localStorage w' = localStorage w
    /\ href w' = href w.
Proof.
  intros Hs Hresp.
  assert (400 <= s < 500 /\ s <> 429 /\ s <> 401) as (Hrange & H429 & H401).
  { repeat (apply elem_of_cons in Hs as [->|Hs]); [lia..|].
    by apply elem_of_nil in Hs. }
  unfold Api.apiClient. rewrite client_last
    by (left; by eapply retried_responded_4xx).
  destruct Hresp as ([s' body] & -> & Hs'). simpl in Hs'. subst s'.
  unfold after_final. simpl.
  replace ((200 <=? s) && (s <? 300)) with false
    by (symmetry; apply andb_false_iff; right; lia).
  rewrite bool_decide_eq_false_2 by done.
  eexists _, _. split; [reflexivity|]. done.
Qed.

Lemma client_error_not_retried_witness :
  exists w' error,
    Api.apiClient Scenario.request (Scenario.scripted [] (Scenario.failing 404))
      Scenario.signed_in
    = Some (w', Rejected (AxiosErr error))
    /\ status <$> response error = Some 404
    /\ wire w' = wire Scenario.signed_in ++ [sent Scenario.signed_in Scenario.request]
    /\ timers w' = timers Scenario.signed_in
    /\ localStorage w' = localStorage Scenario.signed_in
    /\ href w' = href Scenario.signed_in.
Proof.
  apply (client_error_not_retried (Scenario.scripted [] (Scenario.failing 404))
           Scenario.signed_in Scenario.request 404).
  - right. right. left.
  - eexists. split; reflexivity.
Defined.

(** C10.  An error without a config is rejected as it is by the response
    interceptor, whatever response or status it carries: [client] is not
    called again, no timer is started and the world, localStorage
    included, is untouched; a call that meets one ends with that attempt. *)
Theorem missing_config_rejects env w c r msg :
  transport env (length (wire w)) (sent w c) = Detached r msg ->
  Api.apiClient c env w
  = Some (push_wire (sent w c) w, Rejected (AxiosErr (mkError None r msg)))
  /\ forall retry error env' w',
       config error = None ->
       Api.onRejected retry error env' w' = Some (w', Rejected (AxiosErr error)).
Proof.
  intros Ho. split.
  - unfold Api.apiClient. rewrite client_last by (left; by rewrite Ho).
    unfold after_final. by rewrite Ho.
  - intros retry error env' w' Hcfg. unfold Api.onRejected. by rewrite Hcfg.
Qed.

Lemma missing_config_rejects_witness :
  Api.apiClient Scenario.request
    (Scenario.scripted [Detached (Some (mkResponse 401 ∅)) "detached"] (Scenario.ok ∅))
    Scenario.signed_in
  = Some (push_wire (sent Scenario.signed_in Scenario.request) Scenario.signed_in,
          Rejected (AxiosErr (mkError None (Some (mkResponse 401 ∅)) "detached")))
  /\ Api.onRejected (Api.client 4) (mkError None (Some (mkResponse 503 ∅)) "detached")
       (Scenario.scripted [] (Scenario.ok ∅)) Scenario.signed_in
     = Some (Scenario.signed_in,
             Rejected (AxiosErr (mkError None (Some (mkResponse 503 ∅)) "detached"))).
Proof.
  destruct (missing_config_rejects
              (Scenario.scripted [Detached (Some (mkResponse 401 ∅)) "detached"] (Scenario.ok ∅))
              Scenario.signed_in Scenario.request
              (Some (mkResponse 401 ∅)) "detached") as [Hcall Hhandler].
  - reflexivity.
  - split; [exact Hcall|]. apply Hhandler. reflexivity.
Defined.

(** ** The session controller *)

Lemma clearAuth_run env w :
  AuthService.clearAuth env w = Some (set_localStorage cleared w, Fulfilled tt).
Proof. reflexivity. Qed.

Lemma no_credentials_cleared w : no_credentials (set_localStorage cleared w).
Proof.
  unfold no_credentials, cleared; simpl. repeat split.
  - rewrite !lookup_delete_ne by done. apply lookup_delete_eq.
  - rewrite lookup_delete_ne by done. apply lookup_delete_eq.
  - apply lookup_delete_eq.
Qed.

(** [logout] ends normally in a cleared store, however the request ended. *)
Lemma logout_run env w :
  exists w1, AuthService.logout env w = Some (set_localStorage cleared w1, Fulfilled tt).
Proof.
  unfold AuthService.logout, try_finally.
  match goal with |- context [match ?m env w with _ => _ end] =>
    assert (exists w1, m env w = Some (w1, Fulfilled tt)) as [w1 ->]
  end.
  { js_unfold. unfold Api.post.
    destruct (apiClient_total (mkConfig "/auth/logout" "post" ∅ ∅ ∅ None) env w)
      as [[w1 [r|e]] ->]; eexists; reflexivity. }
  rewrite clearAuth_run. by exists w1.
Qed.

(** [refreshToken] when the exchange request is rejected: the catch clause
    clears the store and answers [false]. *)
Lemma refreshToken_rejected env w t w1 e :
  localStorage w !! "refresh_token" = Some t ->
  t <> EmptyString ->
  Api.post "/auth/refresh" {[ "refresh_token" := t ]} env w = Some (w1, Rejected e) ->
  AuthService.refreshToken env w = Some (set_localStorage cleared w1, Fulfilled false).
Proof.
  intros Ht Hne Hpost.
  unfold AuthService.refreshToken, AuthService.getRefreshToken. js_unfold.
  unfold AuthService.REFRESH_TOKEN_KEY. rewrite Ht.
  destruct t as [|a t]; [done|]. simpl in *.
  by rewrite Hpost.
Qed.

(** The gateway's own clear on a 401: one [removeItem]. *)
Lemma gateway_401_clear env w c :
  responded_with 401 (transport env (length (wire w)) (sent w c)) ->
  exists w' error,
    Api.apiClient c env w = Some (w', Rejected (AxiosErr error))
    /\ localStorage w' = delete "access_token" (localStorage w).
Proof.
  intros Hresp. unfold Api.apiClient.
  rewrite client_last by (left; by eapply retried_responded_4xx).
  destruct Hresp as ([s body] & -> & Hs). simpl in Hs. subst s.
  by eexists _, _.
Qed.

(** The store of [Scenario.signed_in] is what the setters of the class
    build from an empty one. *)
Lemma signed_in_reachable env :
  (AuthService.setToken "tok";; AuthService.setRefreshToken "ref";;
   AuthService.setUserSession "{}") env (Scenario.fresh_page ∅)
  = Some (Scenario.signed_in, Fulfilled tt).
Proof. vm_compute. reflexivity. Qed.

(** C5.  [logout] never rejects, and when it returns the store holds no
    access token, no refresh token and no cached session, whatever came
    of the revocation request. *)
Theorem logout_always_clears env w :
  exists w', AuthService.logout env w = Some (w', Fulfilled tt) /\ no_credentials w'.
Proof.
  destruct (logout_run env w) as [w1 ->].
  eexists. split; [reflexivity|]. apply no_credentials_cleared.
Qed.

(** C3, the claim as it stands fails: from a store holding the three
    entries, a 401 leaves the refresh token and the cached session in
    place while the access token is gone. *)
Lemma gateway_clear_is_partial :
  ~ (forall env w c,
       responded_with 401 (transport env (length (wire w)) (sent w c)) ->
       exists w' r, Api.apiClient c env w = Some (w', r) /\ no_credentials w').
Proof.
  intros H.
  destruct (H (Scenario.scripted [] (Scenario.failing 401)) Scenario.signed_in
              Scenario.request) as (w' & r & Hrun & _ & Href & _).
  { eexists. split; reflexivity. }
  vm_compute in Hrun. injection Hrun as <- _.
  vm_compute in Href. discriminate Href.
Qed.

(** C3, amended.  [clearAuth], and with it [logout] and a [refreshToken]
    whose exchange request is rejected, removes the access token, the
    refresh token and the cached session together; the gateway's clear on
    a 401 removes the access token alone and leaves every other entry of
    localStorage as it was. *)
Theorem session_clears env w :
  (exists w', AuthService.clearAuth env w = Some (w', Fulfilled tt)
              /\ no_credentials w')
  /\ (exists w', AuthService.logout env w = Some (w', Fulfilled tt)
                 /\ no_credentials w')
  /\ (forall t w1 e,
        localStorage w !! "refresh_token" = Some t -> t <> EmptyString ->
        Api.post "/auth/refresh" {[ "refresh_token" := t ]} env w = Some (w1, Rejected e) ->
        exists w', AuthService.refreshToken env w = Some (w', Fulfilled false)
                   /\ no_credentials w')
  /\ (forall c,
        responded_with 401 (transport env (length (wire w)) (sent w c)) ->
        exists w' error,
          Api.apiClient c env w = Some (w', Rejected (AxiosErr error))
          /\ localStorage w' = delete "access_token" (localStorage w)).
Proof.
  repeat split.
  - rewrite clearAuth_run. eexists. split; [reflexivity|].
    apply no_credentials_cleared.
  - destruct (logout_run env w) as [w1 ->].
    eexists. split; [reflexivity|]. apply no_credentials_cleared.
  - intros t w1 e Ht Hne Hpost.
    rewrite (refreshToken_rejected env w t w1 e) by done.
    eexists. split; [reflexivity|]. apply no_credentials_cleared.
  - intros c. apply gateway_401_clear.
Qed.

Lemma session_clears_witness :
  (exists w', AuthService.refreshToken
                (Scenario.scripted [] (Scenario.failing 400)) Scenario.signed_in
              = Some (w', Fulfilled false) /\ no_credentials w')
  /\ (exists w' error,
        Api.apiClient Scenario.request
          (Scenario.scripted [] (Scenario.failing 401)) Scenario.signed_in
        = Some (w', Rejected (AxiosErr error))
        /\ localStorage w' = delete "access_token" (localStorage Scenario.signed_in)).
Proof.
  split.
  - apply (session_clears (Scenario.scripted [] (Scenario.failing 400))
             Scenario.signed_in) with (t := "ref")
      (w1 := push_wire
               (sent Scenario.signed_in
                  (mkConfig "/auth/refresh" "post" ∅ {[ "refresh_token" := "ref" ]} ∅ None))
               Scenario.signed_in)
      (e := AxiosErr
              (mkError
                 (Some (sent Scenario.signed_in
                          (mkConfig "/auth/refresh" "post" ∅ {[ "refresh_token" := "ref" ]} ∅ None)))
                 (Some (mkResponse 400 ∅)) "Request failed")).
    + reflexivity.
    + discriminate.
    + reflexivity.
  - apply (session_clears (Scenario.scripted [] (Scenario.failing 401))
             Scenario.signed_in).
    eexists. split; reflexivity.
Defined.

(** C6, the claim as it stands fails: with an access token but no refresh
    token stored, [refreshToken] answers [false] and the access token is
    still there. *)
Lemma refresh_without_token_keeps_store :
  ~ (forall env w,
       localStorage w !! "refresh_token" = None ->
       exists w', AuthService.refreshToken env w = Some (w', Fulfilled false)
                  /\ no_credentials w').
Proof.
  intros H.
  destruct (H (Scenario.scripted [] (Scenario.ok ∅)) Scenario.only_access)
    as (w' & Hrun & Htok & _); [reflexivity|].
  vm_compute in Hrun. injection Hrun as <-.
  vm_compute in Htok. discriminate Htok.
Qed.

(** C6, amended.  With no refresh token stored (none, or an empty one)
    [refreshToken] answers [false] at once: no request is made and the
    store is left as it is. *)
Theorem refresh_without_token env w :
  truthy (localStorage w !! "refresh_token") = false ->
  AuthService.refreshToken env w = Some (w, Fulfilled false).
Proof.
  intros Hno.
  unfold AuthService.refreshToken, AuthService.getRefreshToken. js_unfold.
  unfold AuthService.REFRESH_TOKEN_KEY. by rewrite Hno.
Qed.

Lemma refresh_without_token_witness :
  AuthService.refreshToken (Scenario.scripted [] (Scenario.ok ∅)) Scenario.only_access
  = Some (Scenario.only_access, Fulfilled false).
Proof.
  apply (refresh_without_token (Scenario.scripted [] (Scenario.ok ∅)) Scenario.only_access).
  reflexivity.
Defined.

(** C7.  When the exchange request of [handleShopifyCallback] is fulfilled
    with a body that carries an access token, the method returns that body
    and [getToken], called next, returns the access token of the body. *)
Theorem login_round_trip env w shop code state hmac timestamp w1 resp token :
  Api.get "/auth/shopify/callback"
    (AuthService.callbackParams shop code state hmac timestamp) env w
  = Some (w1, Fulfilled resp) ->
  rdata resp !! "access_token" = Some token ->
  exists w2,
    AuthService.handleShopifyCallback shop code state hmac timestamp env w
    = Some (w2, Fulfilled (rdata resp))
    /\ AuthService.getToken env w2 = Some (w2, Fulfilled (Some token)).
Proof.
  intros Hget Htok.
  unfold AuthService.handleShopifyCallback. js_unfold.
  rewrite Hget, Htok. simpl.
  eexists. split; [reflexivity|].
  unfold AuthService.getToken, read, AuthService.TOKEN_KEY; simpl.
  by rewrite lookup_insert_eq.
Qed.

Lemma login_round_trip_witness :
  exists w2,
    AuthService.handleShopifyCallback "shop" "code" "state" "hmac" "0"
      (Scenario.scripted []
         (Scenario.ok {[ "access_token" := "fresh"; "token_type" := "bearer" ]}))
      Scenario.only_access
    = Some (w2, Fulfilled
                  (rdata (mkResponse 200
                            {[ "access_token" := "fresh"; "token_type" := "bearer" ]})))
    /\ AuthService.getToken
         (Scenario.scripted []
            (Scenario.ok {[ "access_token" := "fresh"; "token_type" := "bearer" ]}))
         w2
       = Some (w2, Fulfilled (Some "fresh")).
Proof.
  apply (login_round_trip
           (Scenario.scripted []
              (Scenario.ok {[ "access_token" := "fresh"; "token_type" := "bearer" ]}))
           Scenario.only_access "shop" "code" "state" "hmac" "0"
           (push_wire
              (sent Scenario.only_access
                 (mkConfig "/auth/shopify/callback" "get"
                    (AuthService.callbackParams "shop" "code" "state" "hmac" "0") ∅ ∅ None))
              Scenario.only_access)
           (mkResponse 200 {[ "access_token" := "fresh"; "token_type" := "bearer" ]})
           "fresh"); reflexivity.
Defined.

(** ** The credential on the wire *)

(** With a non-empty access token stored, the interceptor sets the header
    from the store, whatever the config carried. *)
Lemma requestInterceptor_reads_store store c t :
  store !! "access_token" = Some t -> t <> EmptyString ->
  headers (Api.requestInterceptor store c) !! "Authorization"
  = Some ("Bearer " +:+ t).
Proof.
  intros Ht Hne. unfold Api.requestInterceptor. rewrite Ht.
  destruct t as [|a t]; [done|]. simpl. apply lookup_insert_eq.
Qed.

(** With none, the interceptor returns the config as it came: a header a
    previous attempt put there stays. *)
Lemma requestInterceptor_keeps_config store c :
  truthy (store !! "access_token") = false ->
  Api.requestInterceptor store c = c.
Proof.
  intros Hno. unfold Api.requestInterceptor.
  destruct (store !! "access_token") as [t|]; [|done]. by rewrite Hno.
Qed.

(** A retry issued while the store holds no access token carries the
    [Authorization] header of the attempt before it. *)
Lemma retry_keeps_authorization env w c :
  truthy (localStorage (after_wait env w c) !! "access_token") = false ->
  headers (sent (after_wait env w c) (set_retryCount (S (count c)) (sent w c)))
    !! "Authorization"
  = headers (sent w c) !! "Authorization".
Proof.
  intros Hno. unfold sent at 1.
  rewrite requestInterceptor_keeps_config by done.
  unfold Api.mergeConfig; simpl. by apply lookup_union_l.
Qed.

(** C8, the code at the failing input.  A call goes out with the stored
    token and is answered 503; while it waits to retry, the access token is
    removed from the store; the retry is issued with the store holding no
    access token and still carries [Authorization: Bearer tok], left in
    the config by the first attempt. *)
Theorem stale_authorization_resent :
  let env := Scenario.signed_out_meanwhile in
  let first := sent Scenario.only_access Scenario.request in
  let w1 := after_wait env Scenario.only_access Scenario.request in
  let second := sent w1 (set_retryCount 1 first) in
  Api.apiClient Scenario.request env Scenario.only_access
  = Some (push_wire second w1, Fulfilled (mkResponse 200 ∅))
  /\ localStorage w1 !! "access_token" = None
  /\ headers first !! "Authorization" = Some "Bearer tok"
  /\ headers second !! "Authorization" = Some "Bearer tok".
Proof. vm_compute. done. Qed.

(** ** The local authentication check *)

(** C9, the claim as it stands fails: with the empty string stored as the
    access token, [getToken] returns it and [isAuthenticated] is [false]. *)
Lemma isAuthenticated_empty_token :
  ~ (forall env w,
       AuthService.isAuthenticated env w = Some (w, Fulfilled true)
       <-> is_Some (localStorage w !! "access_token")).
Proof.
  intros H.
  destruct (H (Scenario.scripted [] (Scenario.ok ∅)) Scenario.empty_token) as [_ Hback].
  assert (is_Some (localStorage Scenario.empty_token !! "access_token")) as Hsome
    by (eexists; reflexivity).
  specialize (Hback Hsome). vm_compute in Hback. discriminate Hback.
Qed.

(** C9, amended.  [isAuthenticated] answers [true] exactly when a
    non-empty access token is stored; the answer depends on localStorage
    alone, whatever the remote service would say, and the world is left as
    it is. *)
Theorem isAuthenticated_iff_token w :
  exists b,
    (forall env, AuthService.isAuthenticated env w = Some (w, Fulfilled b))
    /\ (b = true <-> exists t, localStorage w !! "access_token" = Some t /\ t <> EmptyString).
Proof.
  exists (truthy (localStorage w !! "access_token")). split; [reflexivity|].
  destruct (localStorage w !! "access_token") as [[|a t]|]; simpl.
  - split; [done|]. by intros (t & [= <-] & Hne).
  - split; [|done]. intros _. by eexists.
  - split; [done|]. by intros (t & [=] & _).
Qed.

(** ** The gateway under every environment *)

Lemma same_request_refl c : same_request c c.
Proof. by repeat split. Qed.

Lemma same_request_trans a b c :
  same_request a b -> same_request b c -> same_request a c.
Proof.
  intros (?&?&?&?) (?&?&?&?). repeat split; congruence.
Qed.

Lemma same_request_sent w c : same_request (sent w c) c.
Proof.
  unfold sent, Api.requestInterceptor, Api.mergeConfig.
  destruct (localStorage w !! "access_token") as [t|]; [|by repeat split].
  destruct (truthy (Some t)); by repeat split.
Qed.

Lemma take_drop_backoff_step n k :
  (n < 3)%nat ->
  take (S k) (drop n backoff)
  = Api.RETRY_DELAY * 2 ^ (Z.of_nat (S n) - 1) :: take k (drop (S n) backoff).
Proof. intros Hn. destruct n as [|[|[|n]]]; [reflexivity..|lia]. Qed.

Lemma backoff_sum_bounded n k :
  0 <= foldr Z.add 0 (take k (drop n backoff)) <= 7000.
Proof.
  rewrite backoff_eq.
  destruct n as [|[|[|n]]], k as [|[|[|k]]];
    simpl; rewrite ?drop_nil; simpl; rewrite ?take_nil; simpl; lia.
Qed.

(** Every call unrolls into [k] retries and a last attempt: the configs
    put on the wire, the timers awaited, and what is left untouched. *)
Lemma client_unroll b : forall c env w,
  (Api.MAX_RETRIES - count c < b)%nat ->
  exists k cN wN L,
    Api.client b c env w
    = Some (after_final wN cN (transport env (length (wire wN)) (sent wN cN)),
            completion (Api.settle (sent wN cN)
                          (transport env (length (wire wN)) (sent wN cN))))
    /\ (retried (transport env (length (wire wN)) (sent wN cN)) = false
        \/ (Api.MAX_RETRIES <= count cN)%nat)
    /\ (k <= Api.MAX_RETRIES - count c)%nat
    /\ count cN = (count c + k)%nat
    /\ same_request cN c
    /\ wire wN = wire w ++ L
    /\ length L = k
    /\ (forall i c', L !! i = Some c' ->
          count c' = (count c + i)%nat /\ same_request c' c)
    /\ (L ++ [sent wN cN]) !! 0%nat = Some (sent w c)
    /\ timers wN = timers w ++ take k (drop (count c) backoff)
    /\ href wN = href w
    /\ console wN = console w
    /\ (undisturbed env -> localStorage wN = localStorage w).
Proof.
  change Api.MAX_RETRIES with 3%nat.
  induction b as [|b IH]; intros c env w Hb; [lia|].
  destruct (retried (transport env (length (wire w)) (sent w c))) eqn:Hr;
    [destruct (decide (count c < 3)%nat) as [Hc|Hc]|].
  - rewrite client_retry by done.
    destruct (IH (set_retryCount (S (count c)) (sent w c)) env (after_wait env w c))
      as (k & cN & wN & L & Hrun & Hfin & Hk & Hcnt & Hsame & Hwire & HL & Hall
          & Hfirst & Htm & Hh & Hco & Hst).
    { rewrite count_set_retryCount. lia. }
    rewrite count_set_retryCount in *.
    exists (S k), cN, wN, (sent w c :: L).
    split; [exact Hrun|]. split; [exact Hfin|]. split; [lia|]. split; [lia|].
    split.
    { eapply same_request_trans; [exact Hsame|].
      eapply same_request_trans; [|apply (same_request_sent w c)].
      by repeat split. }
    split. { rewrite Hwire, wire_after_wait, <- app_assoc. done. }
    split. { simpl. by rewrite HL. }
    split.
    { intros [|i] c' Hi; simpl in Hi.
      - injection Hi as <-. rewrite count_sent, Nat.add_0_r.
        split; [done|apply same_request_sent].
      - destruct (Hall i c' Hi) as [Hci Hsi]. split; [lia|].
        eapply same_request_trans; [exact Hsi|].
        eapply same_request_trans; [|apply (same_request_sent w c)].
        by repeat split. }
    split; [done|].
    split.
    { rewrite Htm, timers_after_wait, <- app_assoc. f_equal.
      by rewrite take_drop_backoff_step. }
    split; [by rewrite Hh|]. split; [by rewrite Hco|].
    intros Hq. rewrite (Hst Hq). simpl. apply Hq.
  - exists 0%nat, c, w, [].
    rewrite client_last by (right; change Api.MAX_RETRIES with 3%nat; lia).
    rewrite take_0, !app_nil_r, Nat.add_0_r.
    split; [done|]. split; [right; lia|].
    repeat split; try done; try lia;
      intros i c' Hi; by rewrite lookup_nil in Hi.
  - exists 0%nat, c, w, []. rewrite client_final by done.
    rewrite take_0, !app_nil_r, Nat.add_0_r.
    split; [done|]. split; [by left|].
    repeat split; try done; try lia;
      intros i c' Hi; by rewrite lookup_nil in Hi.
Qed.

Lemma apiClient_unroll c env w :
  exists k cN wN L,
    Api.apiClient c env w
    = Some (after_final wN cN (transport env (length (wire wN)) (sent wN cN)),
            completion (Api.settle (sent wN cN)
                          (transport env (length (wire wN)) (sent wN cN))))
    /\ (retried (transport env (length (wire wN)) (sent wN cN)) = false
        \/ (Api.MAX_RETRIES <= count cN)%nat)
    /\ (k <= Api.MAX_RETRIES - count c)%nat
    /\ count cN = (count c + k)%nat
    /\ same_request cN c
    /\ wire wN = wire w ++ L
    /\ length L = k
    /\ (forall i c', L !! i = Some c' ->
          count c' = (count c + i)%nat /\ same_request c' c)
    /\ (L ++ [sent wN cN]) !! 0%nat = Some (sent w c)
    /\ timers wN = timers w ++ take k (drop (count c) backoff)
    /\ href wN = href w
    /\ console wN = console w
    /\ (undisturbed env -> localStorage wN = localStorage w).
Proof. apply client_unroll. fold (count c). lia. Qed.

(** What the last attempt does to the world: nothing but the request on
    the wire, unless it is a 401 that carries its config. *)
Lemma after_final_cases w c o :
  after_final w c o = push_wire (sent w c) w
  \/ exists r msg,
       Api.settle (sent w c) o = inr (mkError (Some (sent w c)) (Some r) msg)
       /\ status r = 401
       /\ after_final w c o
          = set_href "/auth/login"
              (set_localStorage (delete "access_token") (push_wire (sent w c) w)).
Proof.
  unfold after_final. destruct o as [r|msg|r msg]; simpl; [|by left..].
  destruct ((200 <=? status r) && (status r <? 300)); [by left|].
  destruct (decide (status r = 401)) as [E|E].
  - right. exists r, "Request failed". by rewrite bool_decide_eq_true_2.
  - left. by rewrite bool_decide_eq_false_2.
Qed.

(** X1.  Whatever the remote service answers, a call ends after at most
    [1 + (MAX_RETRIES - retryCount)] requests, four for a fresh config; it
    has awaited one timer per retry, taken in order from 1000, 2000, 4000
    ms, so that it never waits more than 7000 ms in all. *)
Theorem attempts_and_wait_bounded env w c :
  exists w' r k,
    Api.apiClient c env w = Some (w', r)
    /\ (k <= Api.MAX_RETRIES - count c)%nat
    /\ length (wire w') = (length (wire w) + S k)%nat
    /\ timers w' = timers w ++ take k (drop (count c) backoff)
    /\ 0 <= foldr Z.add 0 (take k (drop (count c) backoff)) <= 7000.
Proof.
  destruct (apiClient_unroll c env w)
    as (k & cN & wN & L & Hrun & _ & Hk & _ & _ & Hwire & HL & _ & _ & Htm & _).
  eexists _, _, k. split; [exact Hrun|]. split; [done|].
  rewrite wire_after_final, timers_after_final, length_app, Hwire, length_app, HL.
  simpl. split; [lia|]. split; [done|]. apply backoff_sum_bounded.
Qed.

(** X2.  Every request a call puts on the wire, the first one and each
    retry, asks for the same thing as the caller's config: same url,
    method, query parameters and body; the i-th of them (from 0) carries
    retry count [retryCount + i], which never passes [MAX_RETRIES] for a
    config that started within it. *)
Theorem retries_resend_same_request env w c :
  exists w' r L,
    Api.apiClient c env w = Some (w', r)
    /\ wire w' = wire w ++ L
    /\ forall i c', L !! i = Some c' ->
         same_request c' c
         /\ count c' = (count c + i)%nat
         /\ (i <= Api.MAX_RETRIES - count c)%nat.
Proof.
  destruct (apiClient_unroll c env w)
    as (k & cN & wN & L & Hrun & _ & Hk & Hcnt & Hsame & Hwire & HL & Hall & _).
  eexists _, _, (L ++ [sent wN cN]). split; [exact Hrun|].
  split. { by rewrite wire_after_final, Hwire, <- app_assoc. }
  intros i c' Hi. apply lookup_app_Some in Hi as [Hi|[Hge Hi]].
  - destruct (Hall i c' Hi) as [Hc Hs]. apply lookup_lt_Some in Hi.
    repeat split; [apply Hs..|done|lia].
  - destruct (i - length L)%nat as [|j] eqn:Hj; [|done].
    injection Hi as <-. rewrite count_sent.
    split; [|lia].
    eapply same_request_trans; [apply same_request_sent|done].
Qed.

Lemma retries_resend_same_request_witness :
  exists w' r L,
    Api.apiClient Scenario.request
      (Scenario.scripted [Scenario.failing 503; Scenario.failing 502] (Scenario.ok ∅))
      Scenario.only_access
    = Some (w', r)
    /\ wire w' = wire Scenario.only_access ++ L
    /\ forall i c', L !! i = Some c' ->
         same_request c' Scenario.request
         /\ count c' = (count Scenario.request + i)%nat
         /\ (i <= Api.MAX_RETRIES - count Scenario.request)%nat.
Proof.
  apply (retries_resend_same_request
           (Scenario.scripted [Scenario.failing 503; Scenario.failing 502] (Scenario.ok ∅))
           Scenario.only_access Scenario.request).
Defined.

Lemma apiClient_cases env w c :
  undisturbed env ->
  exists w',
    console w' = console w
    /\ ((exists resp,
           Api.apiClient c env w = Some (w', Fulfilled resp)
           /\ 200 <= status resp < 300
           /\ localStorage w' = localStorage w /\ href w' = href w)
        \/ (exists error,
              Api.apiClient c env w = Some (w', Rejected (AxiosErr error))
              /\ ((localStorage w' = localStorage w /\ href w' = href w)
                  \/ (status <$> response error = Some 401
                      /\ localStorage w' = delete "access_token" (localStorage w)
                      /\ href w' = "/auth/login")))).
Proof.
  intros Hq.
  destruct (apiClient_unroll c env w)
    as (k & cN & wN & L & Hrun & _ & _ & _ & _ & _ & _ & _ & _ & _ & Hh & Hco & Hst).
  specialize (Hst Hq). rewrite Hrun. clear Hrun.
  set (o := transport env (length (wire wN)) (sent wN cN)).
  destruct (after_final_cases wN cN o) as [->|(r & msg & Hs & H401 & ->)].
  - exists (push_wire (sent wN cN) wN). split; [exact Hco|].
    destruct (Api.settle (sent wN cN) o) as [resp|error] eqn:Hs; simpl.
    + left. exists resp. split; [done|]. split; [|done].
      destruct o as [r0|m|r0 m]; simpl in Hs; [|done..].
      destruct ((200 <=? status r0) && (status r0 <? 300)) eqn:E; [|done].
      injection Hs as <-. apply andb_true_iff in E. lia.
    + right. exists error. split; [done|]. by left.
  - exists (set_href "/auth/login"
              (set_localStorage (delete "access_token") (push_wire (sent wN cN) wN))).
    split; [exact Hco|]. right. rewrite Hs. simpl.
    eexists. split; [done|]. right. simpl. by rewrite H401, Hst.
Qed.

(** X3.  When no other task writes to localStorage meanwhile, a call
    leaves the console alone and changes localStorage and the location in
    one case only: it is rejected with a 401, the access token entry is
    removed (no other entry is touched) and the location is the login
    route.  A fulfilled call changes neither. *)
Theorem gateway_store_frame env w c :
  undisturbed env ->
  exists w' r,
    Api.apiClient c env w = Some (w', r)
    /\ console w' = console w
    /\ ((localStorage w' = localStorage w /\ href w' = href w)
        \/ (exists error,
              r = Rejected (AxiosErr error)
              /\ status <$> response error = Some 401
              /\ localStorage w' = delete "access_token" (localStorage w)
              /\ href w' = "/auth/login")).
Proof.
  intros Hq.
  destruct (apiClient_cases env w c Hq)
    as (w' & Hco & [(resp & Hrun & _ & Hst & Hh)|(error & Hrun & Hcase)]).
  - eexists _, _. split; [exact Hrun|]. split; [done|]. by left.
  - eexists _, _. split; [exact Hrun|]. split; [done|].
    destruct Hcase as [[Hst Hh]|(H401 & Hst & Hh)]; [by left|].
    right. by exists error.
Qed.

Lemma gateway_store_frame_witness :
  exists w' r,
    Api.apiClient Scenario.request
      (Scenario.scripted [Scenario.failing 503] (Scenario.failing 401))
      Scenario.signed_in
    = Some (w', r)
    /\ console w' = console Scenario.signed_in
    /\ ((localStorage w' = localStorage Scenario.signed_in
         /\ href w' = href Scenario.signed_in)
        \/ (exists error,
              r = Rejected (AxiosErr error)
              /\ status <$> response error = Some 401
              /\ localStorage w' = delete "access_token" (localStorage Scenario.signed_in)
              /\ href w' = "/auth/login")).
Proof.
  apply (gateway_store_frame
           (Scenario.scripted [Scenario.failing 503] (Scenario.failing 401))
           Scenario.signed_in Scenario.request).
  intros n store. reflexivity.
Defined.

(** X4.  A call is fulfilled only with a response the remote service gave
    to the last request on the wire, and only if its status is 2xx: the
    gateway never makes up a success and never alters the response. *)
Theorem fulfilled_only_by_2xx env w c w' resp :
  Api.apiClient c env w = Some (w', Fulfilled resp) ->
  200 <= status resp < 300
  /\ exists final,
       last (wire w') = Some final
       /\ transport env (length (wire w') - 1) final = Responded resp.
Proof.
  intros Hrun.
  destruct (apiClient_unroll c env w)
    as (k & cN & wN & L & Hrun' & _).
  rewrite Hrun in Hrun'. injection Hrun' as -> Hc.
  set (o := transport env (length (wire wN)) (sent wN cN)) in *.
  assert (o = Responded resp /\ 200 <= status resp < 300) as [Ho Hs].
  { destruct o as [r0|m|r0 m]; simpl in Hc; [|done..].
    destruct ((200 <=? status r0) && (status r0 <? 300)) eqn:E; [|done].
    injection Hc as ->. apply andb_true_iff in E. split; [done|lia]. }
  split; [done|]. exists (sent wN cN).
  rewrite wire_after_final, last_snoc, length_app. simpl.
  split; [done|]. by rewrite Nat.add_sub.
Qed.

Lemma fulfilled_only_by_2xx_witness :
  200 <= status (mkResponse 201 {[ "id" := "s1" ]}) < 300
  /\ exists final,
       last (wire (push_wire (sent Scenario.only_access Scenario.request)
                     Scenario.only_access)) = Some final
       /\ transport (Scenario.scripted [Responded (mkResponse 201 {[ "id" := "s1" ]})]
                       (Scenario.failing 500))
            (length (wire (push_wire (sent Scenario.only_access Scenario.request)
                             Scenario.only_access)) - 1)
            final
          = Responded (mkResponse 201 {[ "id" := "s1" ]}).
Proof.
  apply (fulfilled_only_by_2xx
           (Scenario.scripted [Responded (mkResponse 201 {[ "id" := "s1" ]})]
              (Scenario.failing 500))
           Scenario.only_access Scenario.request).
  reflexivity.
Defined.

Lemma retried_below_500 s o :
  responded_with s o -> s <> 0 -> s < 500 -> s <> 429 -> retried o = false.
Proof.
  intros (r & -> & <-) H0 Hs H429. simpl.
  apply andb_false_iff. right. apply negb_false_iff.
  apply andb_true_iff; split; [apply andb_true_iff; split|].
  - apply negb_true_iff. lia.
  - lia.
  - apply negb_true_iff. lia.
Qed.

Lemma resubmitted_status_retried o : resubmitted_status o -> retried o = true.
Proof.
  destruct o as [r|msg|r msg]; simpl; [|done..].
  intros Hs. apply andb_true_iff. split.
  - apply negb_true_iff, andb_false_iff. lia.
  - apply negb_true_iff. unfold Api.noRetryStatus, truthy_num.
    destruct Hs as [->|[->|Hs]]; [done..|].
    apply andb_false_iff. left. apply andb_false_iff. right. lia.
Qed.

(** X5.  Any response outside 2xx with a status below 500 other than 429
    and 0 - informational, redirect and every client error alike - ends
    the call with that one attempt and no timer; localStorage and the
    location change only when the status is 401. *)
Theorem status_below_500_not_retried env w c s :
  s <> 0 -> s < 500 -> s <> 429 -> ~ (200 <= s < 300) ->
  responded_with s (transport env (length (wire w)) (sent w c)) ->
  exists w' error,
    Api.apiClient c env w = Some (w', Rejected (AxiosErr error))
    /\ status <$> response error = Some s
    /\ wire w' = wire w ++ [sent w c]
    /\ timers w' = timers w
    /\ localStorage w'
       = (if bool_decide (s = 401) then delete "access_token" (localStorage w)
          else localStorage w)
    /\ href w' = (if bool_decide (s = 401) then "/auth/login" else href w).
Proof.
  intros H0 Hs H429 H2xx Hresp.
  unfold Api.apiClient. rewrite client_last
    by (left; by eapply retried_below_500).
  destruct Hresp as ([s' body] & -> & Hs'). simpl in Hs'. subst s'.
  unfold after_final. simpl.
  replace ((200 <=? s) && (s <? 300)) with false
    by (symmetry; apply andb_false_iff; lia).
  eexists _, _. split; [reflexivity|].
  simpl. destruct (bool_decide (s = 401)); repeat split.
Qed.

Lemma status_below_500_not_retried_witness :
  exists w' error,
    Api.apiClient Scenario.request (Scenario.scripted [] (Scenario.failing 304))
      Scenario.signed_in
    = Some (w', Rejected (AxiosErr error))
    /\ status <$> response error = Some 304
    /\ wire w' = wire Scenario.signed_in ++ [sent Scenario.signed_in Scenario.request]
    /\ timers w' = timers Scenario.signed_in
    /\ localStorage w'
       = (if bool_decide (304 = 401)
          then delete "access_token" (localStorage Scenario.signed_in)
          else localStorage Scenario.signed_in)
    /\ href w' = (if bool_decide (304 = 401) then "/auth/login"
                  else href Scenario.signed_in).
Proof.
  apply (status_below_500_not_retried (Scenario.scripted [] (Scenario.failing 304))
           Scenario.signed_in Scenario.request 304).
  - lia.
  - lia.
  - lia.
  - lia.
  - eexists. split; reflexivity.
Defined.

(** X6.  The retry schedule holds for every failure the interceptor
    resubmits, not only for 500, 502 and 503: no response, or a response
    with status 429, with any status from 500 up (501, 504, ...), or with
    status 0.  After [N] of them on a fresh config, the next outcome being
    of another kind when [N < 3], the call has made min(N+1, 4) requests
    and awaited the first [N] of 1000, 2000, 4000 ms. *)
Theorem every_server_error_retried env w c N :
  retryCount c = None ->
  (forall i cfg, (i < N)%nat ->
     resubmitted_status (transport env (length (wire w) + i) cfg)) ->
  ((N < Api.MAX_RETRIES)%nat ->
     forall cfg, retried (transport env (length (wire w) + N) cfg) = false) ->
  exists w' r,
    Api.apiClient c env w = Some (w', r)
    /\ length (wire w') = (length (wire w) + (N + 1) `min` 4)%nat
    /\ timers w' = timers w ++ take N [1000; 2000; 4000].
Proof.
  intros Hfresh Hfail Hend.
  destruct (apiClient_run N c env w) as (cN & wN & Hrun & Hlen & Htm & _);
    [done| |done|].
  { intros i cfg Hi. by apply resubmitted_status_retried, Hfail. }
  eexists _, _. split; [exact Hrun|].
  rewrite wire_after_final, timers_after_final, length_app, Hlen. simpl.
  change Api.MAX_RETRIES with 3%nat. split; [lia|]. by rewrite Htm, backoff_eq.
Qed.

Lemma every_server_error_retried_witness :
  exists w' r,
    Api.apiClient Scenario.request
      (Scenario.scripted [Scenario.failing 504; NoResponse "timeout"; Scenario.failing 0]
         (Scenario.failing 501))
      Scenario.only_access
    = Some (w', r)
    /\ length (wire w') = 4%nat
    /\ timers w' = [1000; 2000; 4000].
Proof.
  apply (every_server_error_retried
           (Scenario.scripted
              [Scenario.failing 504; NoResponse "timeout"; Scenario.failing 0]
              (Scenario.failing 501))
           Scenario.only_access Scenario.request 4).
  - reflexivity.
  - intros i cfg Hi. destruct i as [|[|[|[|i]]]]; simpl; lia.
  - unfold Api.MAX_RETRIES. lia.
Defined.

(** X7.  The first request of a call carries the stored access token,
    when one is stored and not empty, as [Authorization: Bearer <token>],
    overriding an [Authorization] header of the caller's config; with no
    token, or an empty one, the request still goes out, with the caller's
    header if there is one and none otherwise. *)
Theorem first_request_authorization env w c :
  exists w' r first,
    Api.apiClient c env w = Some (w', r)
    /\ wire w' !! length (wire w) = Some first
    /\ same_request first c
    /\ headers first !! "Authorization"
       = match localStorage w !! "access_token" with
         | Some (String a t) => Some ("Bearer " +:+ String a t)
         | _ => headers c !! "Authorization"
         end.
Proof.
  destruct (apiClient_unroll c env w)
    as (k & cN & wN & L & Hrun & _ & _ & _ & _ & Hwire & _ & _ & Hfirst & _).
  eexists _, _, (sent w c). split; [exact Hrun|].
  split.
  { rewrite wire_after_final, Hwire, <- app_assoc.
    by rewrite lookup_app_r, Nat.sub_diag by lia. }
  split; [apply same_request_sent|].
  unfold sent, Api.requestInterceptor.
  destruct (localStorage w !! "access_token") as [[|a t]|]; simpl.
  - by apply lookup_union_l.
  - apply lookup_insert_eq.
  - by apply lookup_union_l.
Qed.

(** X8.  A retry reads the store again: if a non-empty access token is
    stored when the first backoff wait is over, the second request carries
    it as [Authorization: Bearer <token>], whatever the first request
    carried. *)
Theorem retry_reads_fresh_token env w c t :
  retried (transport env (length (wire w)) (sent w c)) = true ->
  (count c < Api.MAX_RETRIES)%nat ->
  meanwhile env (length (timers w)) (localStorage w) !! "access_token" = Some t ->
  t <> EmptyString ->
  exists w' r second,
    Api.apiClient c env w = Some (w', r)
    /\ wire w' !! S (length (wire w)) = Some second
    /\ same_request second c
    /\ headers second !! "Authorization" = Some ("Bearer " +:+ t).
Proof.
  intros Hr Hc Ht Hne.
  unfold Api.apiClient. fold (count c). rewrite client_retry by done.
  set (c1 := set_retryCount (S (count c)) (sent w c)).
  set (w1 := after_wait env w c).
  destruct (client_unroll (Api.MAX_RETRIES - count c) c1 env w1)
    as (k & cN & wN & L & Hrun & _ & _ & _ & _ & Hwire & _ & _ & Hfirst & _).
  { unfold c1. rewrite count_set_retryCount. lia. }
  eexists _, _, (sent w1 c1). split; [exact Hrun|].
  split.
  { rewrite wire_after_final, Hwire, <- app_assoc.
    unfold w1. rewrite wire_after_wait.
    rewrite lookup_app_r by (rewrite length_app; simpl; lia).
    rewrite length_app. simpl.
    by replace (S (length (wire w)) - (length (wire w) + 1))%nat with 0%nat by lia. }
  split.
  { eapply same_request_trans; [apply same_request_sent|].
    eapply same_request_trans; [|apply (same_request_sent w c)].
    by repeat split. }
  unfold sent at 1. by apply requestInterceptor_reads_store.
Qed.

Lemma retry_reads_fresh_token_witness :
  exists w' r second,
    Api.apiClient Scenario.request
      (mkEnv (fun n _ => match n with O => Scenario.failing 503 | _ => Scenario.ok ∅ end)
             (fun _ store => <[ "access_token" := "renewed" ]> store))
      Scenario.only_access
    = Some (w', r)
    /\ wire w' !! S (length (wire Scenario.only_access)) = Some second
    /\ same_request second Scenario.request
    /\ headers second !! "Authorization" = Some ("Bearer " +:+ "renewed").
Proof.
  apply (retry_reads_fresh_token
           (mkEnv (fun n _ => match n with O => Scenario.failing 503 | _ => Scenario.ok ∅ end)
                  (fun _ store => <[ "access_token" := "renewed" ]> store))
           Scenario.only_access Scenario.request "renewed").
  - reflexivity.
  - unfold Api.MAX_RETRIES, count. simpl. lia.
  - reflexivity.
  - discriminate.
Defined.

(** ** Error messages *)

Lemma getErrorMessage_nonempty e : Api.getErrorMessage (AxiosErr e) <> EmptyString.
Proof.
  unfold Api.getErrorMessage, or_else.
  destruct (default ∅ (rdata <$> response e) !! "detail") as [[|a d]|];
    destruct (default ∅ (rdata <$> response e) !! "message") as [[|b m]|];
    destruct (message e) as [|x y]; simpl; done.
Qed.

(** X9.  The message drawn from an axios error is never empty, and it is
    the first non-empty one of: the [detail] field of the response body,
    its [message] field, the message of the error itself, and the text
    "An error occurred". *)
Theorem getErrorMessage_chain e :
  let body := default ∅ (rdata <$> response e) in
  Api.getErrorMessage (AxiosErr e) <> EmptyString
  /\ (forall d, body !! "detail" = Some d -> d <> EmptyString ->
        Api.getErrorMessage (AxiosErr e) = d)
  /\ (truthy (body !! "detail") = false ->
      forall m, body !! "message" = Some m -> m <> EmptyString ->
        Api.getErrorMessage (AxiosErr e) = m)
  /\ (truthy (body !! "detail") = false ->
      truthy (body !! "message") = false ->
      message e <> EmptyString ->
      Api.getErrorMessage (AxiosErr e) = message e)
  /\ (truthy (body !! "detail") = false ->
      truthy (body !! "message") = false ->
      message e = EmptyString ->
      Api.getErrorMessage (AxiosErr e) = "An error occurred").
Proof.
  intros body. split; [apply getErrorMessage_nonempty|].
  unfold Api.getErrorMessage, or_else. fold body.
  split; [|split; [|split]].
  - intros d -> Hd. by destruct d.
  - intros -> m -> Hm. by destruct m.
  - intros -> -> Hm. by destruct (message e).
  - intros -> -> ->. done.
Qed.

Lemma getErrorMessage_chain_witness :
  Api.getErrorMessage
    (AxiosErr (mkError None (Some (mkResponse 422 {[ "message" := "Invalid shop" ]}))
                 "Request failed"))
  = "Invalid shop"
  /\ Api.getErrorMessage (AxiosErr (mkError None None "Network Error")) = "Network Error"
  /\ Api.getErrorMessage (AxiosErr (mkError None None EmptyString)) = "An error occurred".
Proof.
  split; [|split].
  - apply (getErrorMessage_chain
             (mkError None (Some (mkResponse 422 {[ "message" := "Invalid shop" ]}))
                "Request failed")); [reflexivity|reflexivity|discriminate].
  - apply (getErrorMessage_chain (mkError None None "Network Error"));
      [reflexivity|reflexivity|discriminate].
  - apply (getErrorMessage_chain (mkError None None EmptyString)); reflexivity.
Defined.

(** ** The services, end to end *)

(** X10.  [handleShopifyCallback], when no other task writes to
    localStorage meanwhile, ends in one of two ways: fulfilled with the
    response body, the access token entry set from it and nothing else in
    localStorage changed; or rejected with a plain error whose message is
    "Failed to complete Shopify auth: " and a non-empty detail, no token
    stored, and localStorage as before or with the access token removed
    (a 401). *)
Theorem login_outcomes env w shop code state hmac timestamp :
  undisturbed env ->
  exists w',
    (exists body,
       AuthService.handleShopifyCallback shop code state hmac timestamp env w
       = Some (w', Fulfilled body)
       /\ localStorage w'
          = <[ "access_token" := AuthService.to_item (body !! "access_token") ]>
              (localStorage w))
    \/ (exists msg,
          AuthService.handleShopifyCallback shop code state hmac timestamp env w
          = Some (w', Rejected (PlainErr ("Failed to complete Shopify auth: " +:+ msg)))
          /\ msg <> EmptyString
          /\ (localStorage w' = localStorage w
              \/ localStorage w' = delete "access_token" (localStorage w))).
Proof.
  intros Hq.
  unfold AuthService.handleShopifyCallback, Api.get. js_unfold.
  destruct (apiClient_cases env w
              (mkConfig "/auth/shopify/callback" "get"
                 (AuthService.callbackParams shop code state hmac timestamp) ∅ ∅ None) Hq)
    as (w1 & _ & [(resp & -> & _ & Hst & _)|(error & -> & Hcase)]).
  - eexists. left. exists (rdata resp). split; [reflexivity|].
    simpl. by rewrite Hst.
  - exists w1. right. exists (Api.getErrorMessage (AxiosErr error)).
    split; [reflexivity|]. split; [apply getErrorMessage_nonempty|].
    destruct Hcase as [[Hst _]|(_ & Hst & _)]; [by left|by right].
Qed.

Lemma login_outcomes_witness :
  exists w',
    (exists body,
       AuthService.handleShopifyCallback "shop" "code" "state" "hmac" "0"
         (Scenario.scripted [] (Scenario.failing 403)) Scenario.only_access
       = Some (w', Fulfilled body)
       /\ localStorage w'
          = <[ "access_token" := AuthService.to_item (body !! "access_token") ]>
              (localStorage Scenario.only_access))
    \/ (exists msg,
          AuthService.handleShopifyCallback "shop" "code" "state" "hmac" "0"
            (Scenario.scripted [] (Scenario.failing 403)) Scenario.only_access
          = Some (w', Rejected (PlainErr ("Failed to complete Shopify auth: " +:+ msg)))
          /\ msg <> EmptyString
          /\ (localStorage w' = localStorage Scenario.only_access
              \/ localStorage w' = delete "access_token" (localStorage Scenario.only_access))).
Proof.
  apply (login_outcomes (Scenario.scripted [] (Scenario.failing 403))
           Scenario.only_access "shop" "code" "state" "hmac" "0").
  intros n store. reflexivity.
Defined.

Lemma refresh_without_token_run env w :
  truthy (localStorage w !! "refresh_token") = false ->
  AuthService.refreshToken env w = Some (w, Fulfilled false).
Proof.
  intros Hno.
  unfold AuthService.refreshToken, AuthService.getRefreshToken. js_unfold.
  unfold AuthService.REFRESH_TOKEN_KEY. by rewrite Hno.
Qed.

(** X11.  [refreshToken] never rejects.  When no other task writes to
    localStorage meanwhile: it answers [true] only if a refresh token was
    stored, and then the access token entry is set from the response body
    while the refresh token, the session and every other entry stay as
    they were; it answers [false] either with no refresh token stored and
    the world untouched, or with one stored and the three entries gone. *)
Theorem refresh_outcomes env w :
  undisturbed env ->
  exists w' b,
    AuthService.refreshToken env w = Some (w', Fulfilled b)
    /\ if b
       then truthy (localStorage w !! "refresh_token") = true
            /\ exists body : JsObject,
                 localStorage w'
                 = <[ "access_token" := AuthService.to_item (body !! "access_token") ]>
                     (localStorage w)
       else (truthy (localStorage w !! "refresh_token") = false /\ w' = w)
            \/ (truthy (localStorage w !! "refresh_token") = true /\ no_credentials w').
Proof.
  intros Hq.
  destruct (truthy (localStorage w !! "refresh_token")) eqn:Ht.
  - unfold AuthService.refreshToken, AuthService.getRefreshToken, Api.post.
    js_unfold. unfold AuthService.REFRESH_TOKEN_KEY. rewrite Ht. cbn [negb].
    destruct (apiClient_cases env w
                (mkConfig "/auth/refresh" "post" ∅
                   {[ "refresh_token"
                      := AuthService.to_item (localStorage w !! "refresh_token") ]}
                   ∅ None) Hq)
      as (w1 & _ & [(resp & -> & _ & Hst & _)|(error & -> & _)]).
    + eexists _, true. split; [reflexivity|]. split; [done|].
      exists (rdata resp). simpl. by rewrite Hst.
    + rewrite clearAuth_run. eexists _, false. split; [reflexivity|].
      right. split; [done|]. apply no_credentials_cleared.
  - exists w, false. split; [by apply refresh_without_token_run|]. by left.
Qed.

Lemma refresh_outcomes_witness :
  exists w' b,
    AuthService.refreshToken
      (Scenario.scripted [] (Scenario.ok {[ "access_token" := "renewed" ]}))
      Scenario.signed_in
    = Some (w', Fulfilled b)
    /\ if b
       then truthy (localStorage Scenario.signed_in !! "refresh_token") = true
            /\ exists body : JsObject,
                 localStorage w'
                 = <[ "access_token" := AuthService.to_item (body !! "access_token") ]>
                     (localStorage Scenario.signed_in)
       else (truthy (localStorage Scenario.signed_in !! "refresh_token") = false
             /\ w' = Scenario.signed_in)
            \/ (truthy (localStorage Scenario.signed_in !! "refresh_token") = true
                /\ no_credentials w').
Proof.
  apply (refresh_outcomes
           (Scenario.scripted [] (Scenario.ok {[ "access_token" := "renewed" ]}))
           Scenario.signed_in).
  intros n store. reflexivity.
Defined.

(** X12.  [verifyStoreAccess] never rejects, and it answers [true] exactly
    when the request is fulfilled with status 200: any rejection, and a
    success with another 2xx status such as 204, give [false]. *)
Theorem verify_outcomes env w shopDomain :
  exists w' b,
    AuthService.verifyStoreAccess shopDomain env w = Some (w', Fulfilled b)
    /\ (b = true <->
        exists resp,
          Api.get ("/auth/shopify/verify/" +:+ shopDomain) ∅ env w
          = Some (w', Fulfilled resp)
          /\ status resp = 200).
Proof.
  unfold AuthService.verifyStoreAccess. js_unfold.
  destruct (apiClient_total
              (mkConfig ("/auth/shopify/verify/" +:+ shopDomain) "get" ∅ ∅ ∅ None) env w)
    as [[w1 [resp|e]] Hrun]; unfold Api.get; rewrite Hrun.
  - eexists _, _. split; [reflexivity|]. split.
    + intros Hb. exists resp. split; [done|]. by apply Z.eqb_eq.
    + intros (resp' & [= <-] & Hs). by apply Z.eqb_eq.
  - eexists _, _. split; [reflexivity|]. split; [done|].
    by intros (resp' & [=] & _).
Qed.

(** X13.  After a fulfilled exchange the stored access token is the
    [access_token] of the response body, or the text "undefined" when the
    body has none; [isAuthenticated] called next answers [true] unless
    the body's [access_token] is the empty string. *)
Theorem login_then_isAuthenticated env w shop code state hmac timestamp w1 resp :
  Api.get "/auth/shopify/callback"
    (AuthService.callbackParams shop code state hmac timestamp) env w
  = Some (w1, Fulfilled resp) ->
  exists w2,
    AuthService.handleShopifyCallback shop code state hmac timestamp env w
    = Some (w2, Fulfilled (rdata resp))
    /\ AuthService.getToken env w2
       = Some (w2, Fulfilled (Some (default "undefined" (rdata resp !! "access_token"))))
    /\ AuthService.isAuthenticated env w2
       = Some (w2, Fulfilled
                 (match rdata resp !! "access_token" with
                  | Some EmptyString => false
                  | _ => true
                  end)).
Proof.
  intros Hget.
  unfold AuthService.handleShopifyCallback. js_unfold. rewrite Hget. simpl.
  eexists. split; [reflexivity|].
  unfold AuthService.isAuthenticated, AuthService.getToken, AuthService.TOKEN_KEY.
  js_unfold. simpl. rewrite lookup_insert_eq. split; [done|].
  by destruct (rdata resp !! "access_token") as [[|a t]|].
Qed.

Lemma login_then_isAuthenticated_witness :
  exists w2,
    AuthService.handleShopifyCallback "shop" "code" "state" "hmac" "0"
      (Scenario.scripted [] (Scenario.ok {[ "token_type" := "bearer" ]}))
      Scenario.only_access
    = Some (w2, Fulfilled (rdata (mkResponse 200 {[ "token_type" := "bearer" ]})))
    /\ AuthService.getToken
         (Scenario.scripted [] (Scenario.ok {[ "token_type" := "bearer" ]})) w2
       = Some (w2, Fulfilled
                 (Some (default "undefined"
                          (rdata (mkResponse 200 {[ "token_type" := "bearer" ]})
                             !! "access_token"))))
    /\ AuthService.isAuthenticated
         (Scenario.scripted [] (Scenario.ok {[ "token_type" := "bearer" ]})) w2
       = Some (w2, Fulfilled
                 (match rdata (mkResponse 200 {[ "token_type" := "bearer" ]})
                          !! "access_token" with
                  | Some EmptyString => false
                  | _ => true
                  end)).
Proof.
  apply (login_then_isAuthenticated
           (Scenario.scripted [] (Scenario.ok {[ "token_type" := "bearer" ]}))
           Scenario.only_access "shop" "code" "state" "hmac" "0"
           (push_wire
              (sent Scenario.only_access
                 (mkConfig "/auth/shopify/callback" "get"
                    (AuthService.callbackParams "shop" "code" "state" "hmac" "0") ∅ ∅ None))
              Scenario.only_access)
           (mkResponse 200 {[ "token_type" := "bearer" ]})).
  reflexivity.
Defined.

Lemma apiClient_completion c env w :
  exists w' x, Api.apiClient c env w = Some (w', completion x).
Proof.
  destruct (apiClient_unroll c env w) as (k & cN & wN & L & Hrun & _).
  by eexists _, _.
Qed.

(** X14.  [getStore] is fulfilled with the body of the 2xx response, and
    otherwise rejects with a plain error whose message is
    "Failed to fetch store: " followed by a non-empty detail: the axios
    error itself never reaches the caller.  The method adds nothing to
    what the request did to the world. *)
Theorem getStore_outcomes env w storeId :
  exists w',
    (exists resp,
       Api.get ("/stores/" +:+ storeId) ∅ env w = Some (w', Fulfilled resp)
       /\ StoreService.getStore storeId env w = Some (w', Fulfilled (rdata resp)))
    \/ (exists error,
          Api.get ("/stores/" +:+ storeId) ∅ env w = Some (w', Rejected error)
          /\ StoreService.getStore storeId env w
             = Some (w', Rejected (PlainErr ("Failed to fetch store: "
                                             +:+ Api.getErrorMessage error)))
          /\ Api.getErrorMessage error <> EmptyString).
Proof.
  unfold StoreService.getStore, Api.get. js_unfold.
  destruct (apiClient_completion (mkConfig ("/stores/" +:+ storeId) "get" ∅ ∅ ∅ None) env w)
    as (w' & [resp|error] & ->); simpl.
  - exists w'. left. by exists resp.
  - exists w'. right. exists (AxiosErr error).
    split; [done|]. split; [done|]. apply getErrorMessage_nonempty.
Qed.

(** X15.  [checkSyncNeeded] answers [false] when the store cannot be
    fetched: the failure is not passed on but logged, as one console line
    made of "Error checking sync needed: " and the message of [getStore]. *)
Theorem checkSyncNeeded_fetch_failure Date_parse now storeId env w w1 error :
  Api.get ("/stores/" +:+ storeId) ∅ env w = Some (w1, Rejected error) ->
  StoreService.checkSyncNeeded Date_parse now storeId env w
  = Some (log_console ("Error checking sync needed: "
                       +:+ ("Failed to fetch store: " +:+ Api.getErrorMessage error)) w1,
          Fulfilled false).
Proof.
  intros Hget.
  unfold StoreService.checkSyncNeeded, StoreService.getStore. js_unfold.
  by rewrite Hget.
Qed.

Lemma checkSyncNeeded_fetch_failure_witness :
  StoreService.checkSyncNeeded (fun _ => Some 0) 0 "s1"
    (Scenario.scripted [] (Scenario.failing 404)) Scenario.only_access
  = Some (log_console
            ("Error checking sync needed: "
             +:+ ("Failed to fetch store: "
                  +:+ Api.getErrorMessage
                        (AxiosErr
                           (mkError
                              (Some (sent Scenario.only_access
                                       (mkConfig ("/stores/" +:+ "s1") "get" ∅ ∅ ∅ None)))
                              (Some (mkResponse 404 ∅)) "Request failed"))))
            (push_wire
               (sent Scenario.only_access (mkConfig ("/stores/" +:+ "s1") "get" ∅ ∅ ∅ None))
               Scenario.only_access),
          Fulfilled false).
Proof.
  apply (checkSyncNeeded_fetch_failure (fun _ => Some 0) 0 "s1"
           (Scenario.scripted [] (Scenario.failing 404)) Scenario.only_access).
  reflexivity.
Defined.

(** X16.  When the store is fetched, [checkSyncNeeded] leaves the world
    as the request left it and answers [true] exactly when the store has
    no (or an empty) [last_sync_at], or when that date parses and lies
    more than 24 hours (86 400 000 ms) before now; exactly 24 hours, a
    date in the future and a date that does not parse all give [false]. *)
Theorem checkSyncNeeded_answer Date_parse now storeId env w w1 resp :
  Api.get ("/stores/" +:+ storeId) ∅ env w = Some (w1, Fulfilled resp) ->
  exists b,
    StoreService.checkSyncNeeded Date_parse now storeId env w = Some (w1, Fulfilled b)
    /\ (b = true <->
        truthy (rdata resp !! "last_sync_at") = false
        \/ exists s lastSync,
             rdata resp !! "last_sync_at" = Some s
             /\ Date_parse s = Some lastSync
             /\ now - lastSync > 86400000).
Proof.
  intros Hget.
  unfold StoreService.checkSyncNeeded, StoreService.getStore. js_unfold.
  rewrite Hget. simpl.
  destruct (rdata resp !! "last_sync_at") as [[|a s]|] eqn:Hlast; simpl.
  - exists true. split; [done|]. split; [by left|done].
  - destruct (Date_parse (String a s)) as [lastSync|] eqn:Hparse.
    + eexists. split; [reflexivity|].
      unfold StoreService.maxAge. split.
      * intros Hb. right. exists (String a s), lastSync.
        repeat split; [done|]. apply Z.ltb_lt in Hb. lia.
      * intros [|(s' & last' & [= <-] & Hp & Hlt)]; [done|].
        rewrite Hparse in Hp. injection Hp as <-. apply Z.ltb_lt. lia.
    + exists false. split; [done|]. split; [done|].
      intros [|(s' & last' & [= <-] & Hp & _)]; [done|].
      by rewrite Hparse in Hp.
  - exists true. split; [done|]. split; [by left|done].
Qed.

Lemma checkSyncNeeded_answer_witness :
  exists b,
    StoreService.checkSyncNeeded (fun _ => Some 1000) 86401000 "s1"
      (Scenario.scripted [] (Scenario.ok {[ "last_sync_at" := "2024-01-01T00:00:01Z" ]}))
      Scenario.only_access
    = Some (push_wire
              (sent Scenario.only_access (mkConfig ("/stores/" +:+ "s1") "get" ∅ ∅ ∅ None))
              Scenario.only_access,
            Fulfilled b)
    /\ (b = true <->
        truthy (rdata (mkResponse 200 {[ "last_sync_at" := "2024-01-01T00:00:01Z" ]})
                  !! "last_sync_at") = false
        \/ exists s lastSync,
             rdata (mkResponse 200 {[ "last_sync_at" := "2024-01-01T00:00:01Z" ]})
               !! "last_sync_at" = Some s
             /\ (fun _ : string => Some 1000) s = Some lastSync
             /\ 86401000 - lastSync > 86400000).
Proof.
  apply (checkSyncNeeded_answer (fun _ => Some 1000) 86401000 "s1"
           (Scenario.scripted []
              (Scenario.ok {[ "last_sync_at" := "2024-01-01T00:00:01Z" ]}))
           Scenario.only_access).
  reflexivity.
Defined.

Lemma apiClient_first c env w :
  exists w' r,
    Api.apiClient c env w = Some (w', r)
    /\ wire w' !! length (wire w) = Some (sent w c).
Proof.
  destruct (apiClient_unroll c env w)
    as (k & cN & wN & L & Hrun & _ & _ & _ & _ & Hwire & _ & _ & Hfirst & _).
  eexists _, _. split; [exact Hrun|].
  rewrite wire_after_final, Hwire, <- app_assoc.
  by rewrite lookup_app_r, Nat.sub_diag by lia.
Qed.

Lemma cleared_other_keys (store : JsObject) k :
  k <> "access_token" -> k <> "refresh_token" -> k <> "user_session" ->
  cleared store !! k = store !! k.
Proof.
  intros H1 H2 H3. unfold cleared. by rewrite !lookup_delete_ne.
Qed.

(** X17.  [logout] removes the three authentication entries and nothing
    else: when no other task writes to localStorage meanwhile, every
    other entry of localStorage reads after [logout] as it did before,
    whether the revocation request succeeded or not. *)
Theorem logout_keeps_other_entries env w k :
  undisturbed env ->
  k <> "access_token" -> k <> "refresh_token" -> k <> "user_session" ->
  exists w',
    AuthService.logout env w = Some (w', Fulfilled tt)
    /\ no_credentials w'
    /\ localStorage w' !! k = localStorage w !! k.
Proof.
  intros Hq H1 H2 H3.
  unfold AuthService.logout, Api.post. js_unfold.
  destruct (apiClient_cases env w (mkConfig "/auth/logout" "post" ∅ ∅ ∅ None) Hq)
    as (w1 & _ & [(resp & -> & _ & Hst & _)|(error & -> & Hcase)]);
    cbv beta iota; rewrite clearAuth_run.
  - eexists. split; [reflexivity|]. split; [apply no_credentials_cleared|].
    simpl. rewrite cleared_other_keys by done. by rewrite Hst.
  - eexists. split; [reflexivity|]. split; [apply no_credentials_cleared|].
    simpl. rewrite cleared_other_keys by done.
    destruct Hcase as [[-> _]|(_ & -> & _)]; [done|].
    by rewrite lookup_delete_ne.
Qed.

Lemma logout_keeps_other_entries_witness :
  exists w',
    AuthService.logout (Scenario.scripted [] (Scenario.failing 401))
      (Scenario.fresh_page {[ "access_token" := "tok"; "theme" := "dark" ]})
    = Some (w', Fulfilled tt)
    /\ no_credentials w'
    /\ localStorage w' !! "theme"
       = localStorage (Scenario.fresh_page {[ "access_token" := "tok"; "theme" := "dark" ]})
           !! "theme".
Proof.
  apply (logout_keeps_other_entries (Scenario.scripted [] (Scenario.failing 401))
           (Scenario.fresh_page {[ "access_token" := "tok"; "theme" := "dark" ]}) "theme").
  - intros n store. reflexivity.
  - discriminate.
  - discriminate.
  - discriminate.
Defined.

(** X18.  [logout] sends the revocation request before it clears the
    store: with a non-empty access token stored, the first request on the
    wire is a POST to /auth/logout that carries this token as
    [Authorization: Bearer <token>], and the store is empty of
    credentials only afterwards. *)
Theorem logout_request_is_authenticated env w t :
  localStorage w !! "access_token" = Some t ->
  t <> EmptyString ->
  exists w' first,
    AuthService.logout env w = Some (w', Fulfilled tt)
    /\ wire w' !! length (wire w) = Some first
    /\ url first = "/auth/logout"
    /\ method first = "post"
    /\ headers first !! "Authorization" = Some ("Bearer " +:+ t)
    /\ no_credentials w'.
Proof.
  intros Ht Hne.
  unfold AuthService.logout, Api.post. js_unfold.
  destruct (apiClient_first (mkConfig "/auth/logout" "post" ∅ ∅ ∅ None) env w)
    as (w1 & r & -> & Hfirst).
  exists (set_localStorage cleared
            match r with
            | Fulfilled _ => w1
            | Rejected e =>
                log_console ("Error during logout: " +:+ Api.getErrorMessage e) w1
            end),
    (sent w (mkConfig "/auth/logout" "post" ∅ ∅ ∅ None)).
  split. { destruct r; cbv beta iota; by rewrite clearAuth_run. }
  split. { by destruct r. }
  pose proof (same_request_sent w (mkConfig "/auth/logout" "post" ∅ ∅ ∅ None))
    as (Hu & Hm & _).
  split; [done|]. split; [done|].
  split; [|apply no_credentials_cleared].
  unfold sent. by apply requestInterceptor_reads_store.
Qed.

Lemma logout_request_is_authenticated_witness :
  exists w' first,
    AuthService.logout (Scenario.scripted [] (Scenario.ok ∅)) Scenario.signed_in
    = Some (w', Fulfilled tt)
    /\ wire w' !! length (wire Scenario.signed_in) = Some first
    /\ url first = "/auth/logout"
    /\ method first = "post"
    /\ headers first !! "Authorization" = Some ("Bearer " +:+ "tok")
    /\ no_credentials w'.
Proof.
  apply (logout_request_is_authenticated (Scenario.scripted [] (Scenario.ok ∅))
           Scenario.signed_in "tok").
  - reflexivity.
  - discriminate.
Defined.

(** X19.  [refreshToken], with a non-empty refresh token stored, sends it
    in the body of a POST to /auth/refresh, as the field [refresh_token]
    and not in the url or the query parameters; this is the first request
    on the wire. *)
Theorem refresh_sends_stored_token env w t :
  localStorage w !! "refresh_token" = Some t ->
  t <> EmptyString ->
  exists w' b first,
    AuthService.refreshToken env w = Some (w', Fulfilled b)
    /\ wire w' !! length (wire w) = Some first
    /\ url first = "/auth/refresh"
    /\ method first = "post"
    /\ params first = ∅
    /\ data first = {[ "refresh_token" := t ]}.
Proof.
  intros Ht Hne.
  unfold AuthService.refreshToken, AuthService.getRefreshToken, Api.post.
  js_unfold. unfold AuthService.REFRESH_TOKEN_KEY. rewrite Ht.
  destruct t as [|a t]; [done|]. cbn [truthy negb].
  change (AuthService.to_item (Some (String a t))) with (String a t).
  destruct (apiClient_first
              (mkConfig "/auth/refresh" "post" ∅ {[ "refresh_token" := String a t ]} ∅ None)
              env w) as (w1 & r & -> & Hfirst).
  pose proof (same_request_sent w
                (mkConfig "/auth/refresh" "post" ∅ {[ "refresh_token" := String a t ]} ∅ None))
    as (Hu & Hm & Hp & Hd).
  destruct r as [resp|e]; cbv beta iota.
  - eexists _, true, _. split; [reflexivity|]. by split.
  - rewrite clearAuth_run. eexists _, false, _. split; [reflexivity|]. by split.
Qed.

Lemma refresh_sends_stored_token_witness :
  exists w' b first,
    AuthService.refreshToken (Scenario.scripted [] (Scenario.failing 401))
      Scenario.signed_in
    = Some (w', Fulfilled b)
    /\ wire w' !! length (wire Scenario.signed_in) = Some first
    /\ url first = "/auth/refresh"
    /\ method first = "post"
    /\ params first = ∅
    /\ data first = {[ "refresh_token" := "ref" ]}.
Proof.
  apply (refresh_sends_stored_token (Scenario.scripted [] (Scenario.failing 401))
           Scenario.signed_in "ref").
  - reflexivity.
  - discriminate.
Defined.

(** ** The 401 branch *)

(** C2, the claim as it stands fails: from a store holding the access
    token, the refresh token and the session, a 401 on the first attempt
    is not retried and sends the page to the login route, but of the
    stored credential only the access token is gone: the refresh token is
    still there. *)
Lemma unauthorized_keeps_refresh_token :
  ~ (forall env w c,
       retryCount c = None ->
       responded_with 401 (transport env (length (wire w)) (sent w c)) ->
       exists w' error,
         Api.apiClient c env w = Some (w', Rejected (AxiosErr error))
         /\ length (wire w') = S (length (wire w))
         /\ localStorage w' !! "access_token" = None
         /\ localStorage w' !! "refresh_token" = None
         /\ href w' = "/auth/login").
Proof.
  intros H.
  destruct (H (Scenario.scripted [] (Scenario.failing 401)) Scenario.signed_in
              Scenario.request) as (w' & error & Hrun & _ & _ & Href & _).
  { reflexivity. }
  { eexists. split; reflexivity. }
  vm_compute in Hrun. injection Hrun as <- _.
  vm_compute in Href. discriminate Href.
Qed.

(** C2, amended.  A response with status 401 ends the call with the
    attempt that received it, also when it comes after retries: no
    further request goes out, the 401 error is what the caller gets, the
    page is sent to the login route, and of the stored credential the
    access token alone is removed: when no other task writes to
    localStorage meanwhile, the store after the call is the store before
    it without the access token entry, the refresh token and the cached
    session being as they were. *)
Theorem unauthorized_not_retried env w c N :
  retryCount c = None ->
  (N <= Api.MAX_RETRIES)%nat ->
  (forall i cfg, (i < N)%nat ->
     retried (transport env (length (wire w) + i) cfg) = true) ->
  (forall cfg, responded_with 401 (transport env (length (wire w) + N) cfg)) ->
  exists w' error,
    Api.apiClient c env w = Some (w', Rejected (AxiosErr error))
    /\ status <$> response error = Some 401
    /\ length (wire w') = (length (wire w) + N + 1)%nat
    /\ timers w' = timers w ++ take N backoff
    /\ localStorage w' !! "access_token" = None
    /\ href w' = "/auth/login"
    /\ (undisturbed env ->
        localStorage w' = delete "access_token" (localStorage w)
        /\ localStorage w' !! "refresh_token" = localStorage w !! "refresh_token"
        /\ localStorage w' !! "user_session" = localStorage w !! "user_session").
Proof.
  intros Hfresh HN Hfail H401.
  destruct (apiClient_run N c env w) as (cN & wN & Hrun & Hlen & Htm & _);
    [done|done| |].
  { intros _ cfg. by eapply retried_responded_4xx. }
  change Api.MAX_RETRIES with 3%nat in *.
  replace (N `min` 3)%nat with N in Hlen by lia.
  rewrite Hlen in Hrun.
  destruct (H401 (sent wN cN)) as ([s body] & Ho & Hs). simpl in Hs. subst s.
  rewrite Ho in Hrun. unfold after_final in Hrun. simpl in Hrun.
  rewrite Hrun.
  eexists _, _. split; [reflexivity|]. simpl.
  rewrite length_app, Hlen. simpl.
  split; [done|]. split; [done|]. split; [done|].
  split; [apply lookup_delete_eq|]. split; [done|].
  intros Hq.
  assert (delete "access_token" (localStorage wN)
          = delete "access_token" (localStorage w)) as Hstore.
  { destruct (apiClient_cases env w c Hq)
      as (w'' & _ & [(resp & Hrun' & _)|(error & Hrun' & Hcase)]);
      rewrite Hrun in Hrun'; [done|].
    injection Hrun' as <- _.
    destruct Hcase as [[Hst _]|(_ & Hst & _)]; simpl in Hst; [|done].
    rewrite Hst. symmetry. apply delete_id.
    rewrite <- Hst. apply lookup_delete_eq. }
  rewrite Hstore. split; [done|]. by rewrite !lookup_delete_ne.
Qed.

Lemma unauthorized_not_retried_witness :
  exists w' error,
    Api.apiClient Scenario.request
      (Scenario.scripted [Scenario.failing 503] (Scenario.failing 401))
      Scenario.signed_in
    = Some (w', Rejected (AxiosErr error))
    /\ status <$> response error = Some 401
    /\ length (wire w') = 2%nat
    /\ timers w' = [1000]
    /\ localStorage w' !! "access_token" = None
    /\ href w' = "/auth/login"
    /\ localStorage w' = delete "access_token" (localStorage Scenario.signed_in)
    /\ localStorage w' !! "refresh_token" = Some "ref"
    /\ localStorage w' !! "user_session" = Some "{}".
Proof.
  destruct (unauthorized_not_retried
              (Scenario.scripted [Scenario.failing 503] (Scenario.failing 401))
              Scenario.signed_in Scenario.request 1)
    as (w' & error & Hrun & Hs & Hlen & Htm & Htok & Hh & Hframe).
  - reflexivity.
  - unfold Api.MAX_RETRIES. lia.
  - intros i cfg Hi. destruct i as [|i]; [reflexivity|lia].
  - intros cfg. eexists. split; reflexivity.
  - destruct Hframe as (Hst & Href & Hses); [intros n store; reflexivity|].
    exists w', error. repeat split; assumption.
Defined.
